(** * File-level feature extraction for .NET binaries

    A shallow embedding of [capa/features/extractors/dotnetfile.py]: the
    extraction rules that walk the parsed metadata tables and headers of a
    managed executable, the two registries [FILE_HANDLERS] and
    [GLOBAL_HANDLERS], and the [DotnetFileFeatureExtractor] class.

    Python generators are finite here, so a generator is the list of the
    pairs it yields, in yield order; nested [for] loops that yield are binds
    of the list monad.  Python integers are unbounded: [Z].
    A Python [str] payload is a [string]; a [bytes] value is a [list byte].
    A call that raises is a value [inl e] of [py_result]. *)

From Stdlib Require Import ZArith Lia Strings.Byte.
From stdpp Require Import base option list strings gmap sets.

Local Open Scope Z_scope.

(** ** Features *)

(** Modelled from the spec: the constants [OS_ANY], [ARCH_I386], [ARCH_AMD64],
    [ARCH_ANY] and [FORMAT_DOTNET] are imported from [capa.features.common],
    which is not part of the extractor module; the spec names the three
    architectures x86, x64 and "any", the single OS tag "any", and one constant
    marker for the container format. *)
Inductive os_value : Set := OS_ANY.

Inductive arch_value : Set := ARCH_I386 | ARCH_AMD64 | ARCH_ANY.

Inductive format_value : Set := FORMAT_DOTNET.

(** The feature classes the module constructs ([String'] is capa's [String]
    feature, built by the string scanner). *)
Inductive Feature : Set :=
| Import (name : string)
| FunctionName (name : string)
| String' (value : string)
| Format (value : format_value)
| Characteristic (value : string)
| Namespace (value : string)
| Class (value : string)
| OS (value : os_value)
| Arch (value : arch_value).

#[global] Instance os_value_eq_dec : EqDecision os_value.
Proof. solve_decision. Defined.

#[global] Instance arch_value_eq_dec : EqDecision arch_value.
Proof. solve_decision. Defined.

#[global] Instance format_value_eq_dec : EqDecision format_value.
Proof. solve_decision. Defined.

#[global] Instance Feature_eq_dec : EqDecision Feature.
Proof. solve_decision. Defined.

(** What a handler yields: a feature and its token or address. *)
Abbreviation yielded := (Feature * Z)%type.

(** ** Exceptions *)

Inductive exn : Set :=
| NotImplementedError (msg : string)
| UnicodeDecodeError.

Definition py_result (A : Type) : Type := exn + A.

(** ** The parsed binary, as the module reads it *)

(** A row of the TypeDef or the TypeRef table: the two columns read here. *)
Record TypeRow : Set := {
  TypeNamespace : string;
  TypeName : string
}.

(** A metadata table: its table identifier and its rows in table order. *)
Record MDTable : Set := {
  number : Z;
  rows : list TypeRow
}.

(** [pe.net.Flags]. *)
Record ClrFlags : Set := {
  CLR_32BITREQUIRED : bool;
  CLR_ILONLY : bool
}.

(** [pe.net.struct]. *)
Record ClrStruct : Set := {
  EntryPointTokenOrRva : Z;
  MajorRuntimeVersion : Z;
  MinorRuntimeVersion : Z
}.

(** A [dnfile.dnPE] that has a CLR header: the fields this module reads.
    [mdtables] maps a table name to the table when the binary has it (an
    attribute of [pe.net.mdtables] in the source); [PE_TYPE] is [None] when the
    optional header's magic is neither of the two known ones. *)
Record dnPE : Type := {
  PE_TYPE : option Z;
  data : list byte;
  Flags : ClrFlags;
  struct : ClrStruct;
  Version : list byte;
  mdtables : gmap string MDTable
}.

(** [pefile]'s two optional-header magics. *)
Definition OPTIONAL_HEADER_MAGIC_PE : Z := 0x10b.
Definition OPTIONAL_HEADER_MAGIC_PE_PLUS : Z := 0x20b.

(** ** Helpers of [capa.features.extractors.dnfile.helpers] *)

(** Modelled from the spec: [calculate_dotnet_token_value] is defined in the
    helpers module; the spec gives the token as
    [(table_id << 24) | row_index]. *)
Definition calculate_dotnet_token_value (table rid : Z) : Z :=
  Z.lor (Z.shiftl table 24) rid.

(** Modelled from the spec: [iter_dotnet_table] is defined in the helpers
    module; the spec gives it as the rows of the named table in the table's
    order, or the empty sequence if the binary has no such table. *)
Definition iter_dotnet_table (pe : dnPE) (name : string) : list TypeRow :=
  match mdtables pe !! name with
  | Some t => rows t
  | None => []
  end.

(** Modelled from the spec: [is_dotnet_mixed_mode] is defined in the helpers
    module; the spec gives it as true iff the IL-only flag is absent. *)
Definition is_dotnet_mixed_mode (pe : dnPE) : bool :=
  negb (CLR_ILONLY (Flags pe)).

(** Modelled from the spec: [DnClass.format_name] is defined in the helpers
    module; the spec gives it as the name alone if the namespace is empty, else
    namespace, a dot, and the name. *)
Definition format_name (namespace class_ : string) : string :=
  if decide (namespace = "") then class_ else namespace +:+ "." +:+ class_.

(** Modelled from the spec: [DnMethod] is defined in the helpers module; the
    spec gives it as declaring namespace, declaring type name, method name and
    token, printed as the formatted type name, two colons, and the method
    name. *)
Record DnMethod : Set := {
  method_token : Z;
  method_namespace : string;
  method_class_name : string;
  method_name : string
}.

Definition DnMethod_str (m : DnMethod) : string :=
  format_name (method_namespace m) (method_class_name m) +:+ "::" +:+ method_name m.

(** Modelled from the spec: [DnUnmanagedMethod] is defined in the helpers
    module; the spec gives it as module name, symbol name and token. *)
Record DnUnmanagedMethod : Set := {
  token : Z;
  modulename : string;
  methodname : string
}.

(** [pe.net.mdtables.<name>.number], read inside a loop over
    [iter_dotnet_table pe name]: the loop body runs only when the table is
    present (see [iter_dotnet_table_present]), where this is the table's
    identifier. *)
Definition mdtable_number (pe : dnPE) (name : string) : Z :=
  match mdtables pe !! name with
  | Some t => number t
  | None => 0
  end.

(** ** Extraction rules that need no helper result *)

Definition extract_file_format : list yielded :=
  [(Format FORMAT_DOTNET, 0x0)].

Definition extract_file_os : list yielded :=
  [(OS OS_ANY, 0x0)].

Definition PE_TYPE_is (pe : dnPE) (magic : Z) : bool :=
  bool_decide (PE_TYPE pe = Some magic).

Definition extract_file_arch (pe : dnPE) : list yielded :=
  if CLR_32BITREQUIRED (Flags pe) && PE_TYPE_is pe OPTIONAL_HEADER_MAGIC_PE then
    [(Arch ARCH_I386, 0x0)]
  else if negb (CLR_32BITREQUIRED (Flags pe)) && PE_TYPE_is pe OPTIONAL_HEADER_MAGIC_PE_PLUS then
    [(Arch ARCH_AMD64, 0x0)]
  else
    [(Arch ARCH_ANY, 0x0)].

Definition extract_file_mixed_mode_characteristic_features (pe : dnPE) : list yielded :=
  if is_dotnet_mixed_mode pe then [(Characteristic "mixed mode", 0x0)] else [].

(** [enumerate] counts from 0: [rid] is the position of the row in its
    table. *)
Definition extract_file_class_features (pe : dnPE) : list yielded :=
  imap (fun (rid : nat) (row : TypeRow) =>
          let token :=
            calculate_dotnet_token_value (mdtable_number pe "TypeDef") (Z.of_nat rid + 1) in
          (Class (format_name (TypeNamespace row) (TypeName row)), token))
       (iter_dotnet_table pe "TypeDef")
  ++ imap (fun (rid : nat) (row : TypeRow) =>
             let token :=
               calculate_dotnet_token_value (mdtable_number pe "TypeRef") (Z.of_nat rid + 1) in
             (Class (format_name (TypeNamespace row) (TypeName row)), token))
          (iter_dotnet_table pe "TypeRef").

(** [GLOBAL_HANDLERS] and the loop over it. *)
Definition GLOBAL_HANDLERS : list (dnPE → list yielded) :=
  [ (fun _ => extract_file_os); extract_file_arch ].

Definition extract_global_features (pe : dnPE) : list yielded :=
  handler ← GLOBAL_HANDLERS; handler pe.

(** ** Helper results the spec leaves open *)

(** The import and method resolvers, the variant expansion of an unmanaged
    symbol and the string scanner are defined outside the extractor module, and
    the spec does not fix what they return: they are parameters, each a
    function of what it is passed. *)
Class Helpers : Type := {
  get_dotnet_managed_imports : dnPE → list DnMethod;
  get_dotnet_managed_methods : dnPE → list DnMethod;
  get_dotnet_unmanaged_imports : dnPE → list DnUnmanagedMethod;
  generate_symbols : string → string → list string;
  common_extract_file_strings : list byte → list yielded
}.

(** [namespaces.add(x)] and [namespaces.discard(x)]. *)
Definition set_add (s : gset string) (x : string) : gset string := s ∪ {[x]}.

Definition set_discard (s : gset string) (x : string) : gset string := s ∖ {[x]}.

(** The order in which a [for] loop visits a Python [set] is not fixed by its
    elements (it varies with the hash seed of the run): [set_iter] is the
    order of one run, and [set_iter_lawful] says that it visits each element
    of the set once. *)
Class SetOrder : Type := {
  set_iter : gset string → list string
}.

Definition set_iter_lawful (o : SetOrder) : Prop :=
  ∀ s : gset string, @set_iter o s ≡ₚ elements s.

(** The order stdpp's [elements] picks is one lawful order. *)
Definition elements_order : SetOrder := {| set_iter := elements |}.

(** ** Extraction rules over helper results and tables *)

Section handlers.
Context `{H : Helpers} `{O : SetOrder}.

Definition extract_file_import_names (pe : dnPE) : list yielded :=
  (method ← get_dotnet_managed_imports pe;
   [(Import (DnMethod_str method), method_token method)])
  ++ (imp ← get_dotnet_unmanaged_imports pe;
      name ← generate_symbols (modulename imp) (methodname imp);
      [(Import name, token imp)]).

Definition extract_file_function_names (pe : dnPE) : list yielded :=
  map (fun method => (FunctionName (DnMethod_str method), method_token method))
      (get_dotnet_managed_methods pe).

Definition extract_file_namespace_features (pe : dnPE) : list yielded :=
  let namespaces := ∅ in
  let namespaces :=
    foldl (fun acc row => set_add acc (TypeNamespace row)) namespaces
          (iter_dotnet_table pe "TypeDef") in
  let namespaces :=
    foldl (fun acc row => set_add acc (TypeNamespace row)) namespaces
          (iter_dotnet_table pe "TypeRef") in
  let namespaces := set_discard namespaces "" in
  map (fun namespace => (Namespace namespace, 0x0)) (set_iter namespaces).

Definition extract_file_strings (pe : dnPE) : list yielded :=
  common_extract_file_strings (data pe).

Definition FILE_HANDLERS : list (dnPE → list yielded) :=
  [ extract_file_import_names;
    extract_file_function_names;
    extract_file_strings;
    (fun _ => extract_file_format);
    extract_file_mixed_mode_characteristic_features;
    extract_file_namespace_features;
    extract_file_class_features ].

Definition extract_file_features (pe : dnPE) : list yielded :=
  file_handler ← FILE_HANDLERS; file_handler pe.
End handlers.

(** ** Bytes and their decoding *)

Definition byte_val (b : byte) : Z := Z.of_N (Byte.to_N b).

(** [bytes.rstrip(b"\x00")]: the trailing NUL bytes are removed. *)
Fixpoint rstrip_nul (bs : list byte) : list byte :=
  match bs with
  | [] => []
  | b :: rest =>
      match rstrip_nul rest with
      | [] => if Byte.eqb b x00 then [] else [b]
      | kept => b :: kept
      end
  end.

Definition in_range (lo hi v : Z) : bool := (lo <=? v) && (v <=? hi).

Definition continuation (b : byte) : bool := in_range 0x80 0xBF (byte_val b).

(** The six payload bits of a continuation byte. *)
Definition low6 (b : byte) : Z := Z.land (byte_val b) 0x3F.

(** [bytes.decode("utf-8")] with the default strict error handler: the code
    points of a well-formed UTF-8 string, [None] where Python raises
    [UnicodeDecodeError] (a byte that starts no sequence, a sequence cut short,
    a wrong continuation byte, an overlong form, a surrogate, a code point
    above 0x10FFFF). *)
Fixpoint decode_utf8 (bs : list byte) : option (list Z) :=
  match bs with
  | [] => Some []
  | b0 :: r0 =>
      let v0 := byte_val b0 in
      if v0 <? 0x80 then
        cons v0 <$> decode_utf8 r0
      else if in_range 0xC2 0xDF v0 then
        match r0 with
        | b1 :: r1 =>
            if continuation b1 then
              cons (Z.lor (Z.shiftl (Z.land v0 0x1F) 6) (low6 b1)) <$> decode_utf8 r1
            else None
        | _ => None
        end
      else if in_range 0xE0 0xEF v0 then
        match r0 with
        | b1 :: b2 :: r2 =>
            let lo := if v0 =? 0xE0 then 0xA0 else 0x80 in
            let hi := if v0 =? 0xED then 0x9F else 0xBF in
            if in_range lo hi (byte_val b1) && continuation b2 then
              cons (Z.lor (Z.shiftl (Z.land v0 0x0F) 12)
                          (Z.lor (Z.shiftl (low6 b1) 6) (low6 b2)))
                <$> decode_utf8 r2
            else None
        | _ => None
        end
      else if in_range 0xF0 0xF4 v0 then
        match r0 with
        | b1 :: b2 :: b3 :: r3 =>
            let lo := if v0 =? 0xF0 then 0x90 else 0x80 in
            let hi := if v0 =? 0xF4 then 0x8F else 0xBF in
            if in_range lo hi (byte_val b1) && continuation b2 && continuation b3 then
              cons (Z.lor (Z.shiftl (Z.land v0 0x07) 18)
                          (Z.lor (Z.shiftl (low6 b1) 12)
                                 (Z.lor (Z.shiftl (low6 b2) 6) (low6 b3))))
                <$> decode_utf8 r3
            else None
        | _ => None
        end
      else None
  end.

(** A byte below 0x80 encodes itself. *)
Definition ascii_byte (b : byte) : Prop := byte_val b < 0x80.

(** The bytes that occur in no well-formed UTF-8 string: the two leads of
    overlong two-byte forms and the leads above that of U+10FFFF. *)
Definition never_valid (b : byte) : Prop :=
  byte_val b = 0xC0 ∨ byte_val b = 0xC1 ∨ 0xF5 ≤ byte_val b.

(** Boolean range tests as arithmetic facts. *)
Ltac range_facts :=
  unfold continuation, in_range in *;
  repeat match goal with
         | H : _ && _ = true |- _ => apply andb_prop in H as [? ?]
         | H : (_ <=? _) = true |- _ => apply Z.leb_le in H
         | H : (_ <=? _) = false |- _ => apply Z.leb_gt in H
         | H : (_ <? _) = true |- _ => apply Z.ltb_lt in H
         | H : (_ <? _) = false |- _ => apply Z.ltb_ge in H
         | H : context [if ?c =? ?d then _ else _] |- _ => destruct (Z.eqb_spec c d)
         end.

(** ** The extractor class *)

Module DotnetFileFeatureExtractor.

(** An instance: the path it was opened from and the parsed binary. *)
Record t : Type := {
  path : string;
  pe : dnPE
}.

Definition unsupported : string :=
  "DotnetFileFeatureExtractor can only be used to extract file features".

Definition get_base_address (self : t) : Z := 0x0.

Definition get_entry_point (self : t) : Z :=
  EntryPointTokenOrRva (struct (pe self)).

Definition extract_global_features (self : t) : list yielded :=
  extract_global_features (pe self).

Definition extract_file_features `{H : Helpers} `{O : SetOrder} (self : t) : list yielded :=
  extract_file_features (pe self).

Definition is_mixed_mode (self : t) : bool :=
  is_dotnet_mixed_mode (pe self).

Definition get_runtime_version (self : t) : Z * Z :=
  (MajorRuntimeVersion (struct (pe self)), MinorRuntimeVersion (struct (pe self))).

(** The result is a Python [str]: its code points. *)
Definition get_meta_version_string (self : t) : py_result (list Z) :=
  match decode_utf8 (rstrip_nul (Version (pe self))) with
  | Some s => inr s
  | None => inl UnicodeDecodeError
  end.

(** The function, basic block and instruction level methods: plain methods
    (no [yield]), so the call itself raises.  Their arguments are arbitrary
    Python objects, and so would a result be. *)
Definition get_functions {R : Type} (self : t) : py_result R :=
  inl (NotImplementedError unsupported).

Definition extract_function_features {F R : Type} (self : t) (f : F) : py_result R :=
  inl (NotImplementedError unsupported).

Definition get_basic_blocks {F R : Type} (self : t) (f : F) : py_result R :=
  inl (NotImplementedError unsupported).

Definition extract_basic_block_features {F B R : Type} (self : t) (f : F) (bb : B) : py_result R :=
  inl (NotImplementedError unsupported).

Definition get_instructions {F B R : Type} (self : t) (f : F) (bb : B) : py_result R :=
  inl (NotImplementedError unsupported).

Definition extract_insn_features {F B I R : Type} (self : t) (f : F) (bb : B) (insn : I) : py_result R :=
  inl (NotImplementedError unsupported).

Definition is_library_function {V R : Type} (self : t) (va : V) : py_result R :=
  inl (NotImplementedError unsupported).

Definition get_function_name {V R : Type} (self : t) (va : V) : py_result R :=
  inl (NotImplementedError unsupported).

End DotnetFileFeatureExtractor.

(** ** Outcomes of a call *)

Definition raises {A : Type} (r : py_result A) (e : exn) : Prop := r = inl e.

Definition returns {A : Type} (r : py_result A) (v : A) : Prop := r = inr v.

(** A call that fails with [NotImplementedError] and returns no value. *)
Definition unsupported_operation {A : Type} (r : py_result A) : Prop :=
  (∃ msg, raises r (NotImplementedError msg)) ∧ ∀ v, ¬ returns r v.

(** ** Counting in a stream *)

(** How many yielded pairs carry the feature [f]. *)
Definition count_feature (f : Feature) (out : list yielded) : nat :=
  length (filter (fun y => y.1 = f) out).

(** The type name a TypeDef or TypeRef row is emitted under. *)
Definition class_name_of (row : TypeRow) : string :=
  format_name (TypeNamespace row) (TypeName row).

(** One of the two loops of [extract_file_class_features], over the table
    [name]. *)
Definition class_features_of (pe : dnPE) (name : string) : list yielded :=
  imap (fun (rid : nat) (row : TypeRow) =>
          (Class (class_name_of row),
           calculate_dotnet_token_value (mdtable_number pe name) (Z.of_nat rid + 1)))
       (iter_dotnet_table pe name).

(** The set that [extract_file_namespace_features] iterates over. *)
Definition namespaces_of (pe : dnPE) : gset string :=
  set_discard
    (foldl (fun acc row => set_add acc (TypeNamespace row))
           (foldl (fun acc row => set_add acc (TypeNamespace row)) ∅
                  (iter_dotnet_table pe "TypeDef"))
           (iter_dotnet_table pe "TypeRef"))
    "".

(** The namespace [ns] is that of some TypeDef or TypeRef row. *)
Definition namespace_occurs (pe : dnPE) (ns : string) : Prop :=
  ∃ row, row ∈ iter_dotnet_table pe "TypeDef" ++ iter_dotnet_table pe "TypeRef"
         ∧ TypeNamespace row = ns.

(** Another lawful order: that of [elements], backwards. *)
Definition reversed_order : SetOrder := {| set_iter := fun s => reverse (elements s) |}.

(** ** Sample binaries *)

Definition sample_struct : ClrStruct :=
  {| EntryPointTokenOrRva := 0x06000001; MajorRuntimeVersion := 2; MinorRuntimeVersion := 5 |}.

(** "v4.0.30319" followed by two NUL bytes. *)
Definition sample_version : list byte :=
  [x76; x34; x2e; x30; x2e; x33; x30; x33; x31; x39; x00; x00].

Definition sample_typedef : MDTable :=
  {| number := 2;
     rows := [ {| TypeNamespace := ""; TypeName := "<Module>" |};
               {| TypeNamespace := "Acme.Tools"; TypeName := "Program" |};
               {| TypeNamespace := "Acme.Tools"; TypeName := "Program" |} ] |}.

Definition sample_typeref : MDTable :=
  {| number := 1;
     rows := [ {| TypeNamespace := "System"; TypeName := "Object" |};
               {| TypeNamespace := "Acme.Tools"; TypeName := "Plugin" |} ] |}.

(** A pure managed 32-bit binary with both tables. *)
Definition sample_pe : dnPE :=
  {| PE_TYPE := Some OPTIONAL_HEADER_MAGIC_PE;
     data := [];
     Flags := {| CLR_32BITREQUIRED := true; CLR_ILONLY := true |};
     struct := sample_struct;
     Version := sample_version;
     mdtables := <["TypeDef" := sample_typedef]> (<["TypeRef" := sample_typeref]> ∅) |}.

(** A mixed-mode 64-bit binary whose metadata version is not UTF-8 and that
    has no TypeRef table. *)
Definition mixed_pe : dnPE :=
  {| PE_TYPE := Some OPTIONAL_HEADER_MAGIC_PE_PLUS;
     data := [];
     Flags := {| CLR_32BITREQUIRED := false; CLR_ILONLY := false |};
     struct := sample_struct;
     Version := [x76; xff; x00];
     mdtables := <["TypeDef" := sample_typedef]> ∅ |}.

(** The headers of [sample_pe] over a binary with other content and no
    metadata table. *)
Definition bare_pe : dnPE :=
  {| PE_TYPE := PE_TYPE sample_pe;
     data := [x4d; x5a];
     Flags := {| CLR_32BITREQUIRED := true; CLR_ILONLY := false |};
     struct := sample_struct;
     Version := [];
     mdtables := ∅ |}.

Definition sample_extractor : DotnetFileFeatureExtractor.t :=
  {| DotnetFileFeatureExtractor.path := "sample.exe"; DotnetFileFeatureExtractor.pe := sample_pe |}.

Definition mixed_extractor : DotnetFileFeatureExtractor.t :=
  {| DotnetFileFeatureExtractor.path := "mixed.exe"; DotnetFileFeatureExtractor.pe := mixed_pe |}.

(** One P/Invoke import and a variant policy that adds the ANSI and Unicode
    forms of the symbol. *)
Definition sample_helpers : Helpers :=
  {| get_dotnet_managed_imports := fun _ =>
       [ {| method_token := 0x0A000001; method_namespace := "System.IO";
            method_class_name := "File"; method_name := "OpenRead" |} ];
     get_dotnet_managed_methods := fun _ =>
       [ {| method_token := 0x06000001; method_namespace := "Acme.Tools";
            method_class_name := "Program"; method_name := "Main" |} ];
     get_dotnet_unmanaged_imports := fun _ =>
       [ {| token := 0x06000002; modulename := "kernel32.dll"; methodname := "CreateFile" |} ];
     generate_symbols := fun _ symbol => [symbol; symbol +:+ "A"; symbol +:+ "W"];
     common_extract_file_strings := fun _ => [] |}.

(** The rows of [sample_pe] regrouped: the same namespaces, spread over
    other rows of the other table. *)
Definition regrouped_pe : dnPE :=
  {| PE_TYPE := Some OPTIONAL_HEADER_MAGIC_PE_PLUS;
     data := [];
     Flags := {| CLR_32BITREQUIRED := false; CLR_ILONLY := true |};
     struct := sample_struct;
     Version := sample_version ++ [x00; x00; x00];
     mdtables :=
       <["TypeDef" := {| number := 2;
                         rows := [ {| TypeNamespace := "System"; TypeName := "Console" |} ] |}]>
       (<["TypeRef" := {| number := 1;
                          rows := [ {| TypeNamespace := "Acme.Tools"; TypeName := "Program" |};
                                    {| TypeNamespace := ""; TypeName := "<Module>" |};
                                    {| TypeNamespace := "System"; TypeName := "Object" |} ] |}]> ∅) |}.

Definition regrouped_extractor : DotnetFileFeatureExtractor.t :=
  {| DotnetFileFeatureExtractor.path := "regrouped.exe";
     DotnetFileFeatureExtractor.pe := regrouped_pe |}.

(** What the string scanner yields for this binary is made of [String]
    features only. *)
Definition scanner_yields_strings `{H : Helpers} (pe : dnPE) : Prop :=
  Forall (fun y : yielded => ∃ s, y.1 = String' s) (extract_file_strings pe).

(** A Unicode scalar value: a code point that is not a surrogate. *)
Definition unicode_scalar (c : Z) : Prop :=
  0 ≤ c ≤ 0x10FFFF ∧ ¬ (0xD800 ≤ c ≤ 0xDFFF).

(** A binary whose metadata version is four NUL bytes. *)
Definition nul_version_extractor : DotnetFileFeatureExtractor.t :=
  {| DotnetFileFeatureExtractor.path := "nul.exe";
     DotnetFileFeatureExtractor.pe :=
       {| PE_TYPE := None;
          data := [];
          Flags := {| CLR_32BITREQUIRED := false; CLR_ILONLY := true |};
          struct := sample_struct;
          Version := [x00; x00; x00; x00];
          mdtables := ∅ |} |}.

(** "A", an e with acute accent in two bytes, two NUL bytes. *)
Definition accented_extractor : DotnetFileFeatureExtractor.t :=
  {| DotnetFileFeatureExtractor.path := "accented.exe";
     DotnetFileFeatureExtractor.pe :=
       {| PE_TYPE := None;
          data := [];
          Flags := {| CLR_32BITREQUIRED := false; CLR_ILONLY := true |};
          struct := sample_struct;
          Version := [x41; xc3; xa9; x00; x00];
          mdtables := ∅ |} |}.

(** * Properties *)

(** ** Architecture *)

Example extract_file_arch_sample :
  extract_file_arch sample_pe = [(Arch ARCH_I386, 0)]
  ∧ extract_file_arch mixed_pe = [(Arch ARCH_AMD64, 0)].
Proof. split; reflexivity. Qed.

Lemma PE_TYPE_is_true pe magic : PE_TYPE_is pe magic = true ↔ PE_TYPE pe = Some magic.
Proof. unfold PE_TYPE_is. apply bool_decide_eq_true. Qed.

Lemma PE_TYPE_is_false pe magic : PE_TYPE_is pe magic = false ↔ PE_TYPE pe ≠ Some magic.
Proof. unfold PE_TYPE_is. apply bool_decide_eq_false. Qed.

Lemma extract_file_arch_single (pe : dnPE) : ∃ a, extract_file_arch pe = [(Arch a, 0)].
Proof.
  unfold extract_file_arch.
  repeat match goal with |- context [if ?c then _ else _] => destruct c end; eauto.
Qed.

(** C1: [extract_file_arch] yields exactly one architecture feature, at
    address 0: x86 when [CLR_32BITREQUIRED] is set and the optional header is
    the 32-bit one, x64 when the flag is clear and the optional header is the
    64-bit one, and "any" in every other case, so that the four combinations
    of flag and header kind are all covered. *)
Theorem extract_file_arch_spec (pe : dnPE) :
  (∃ a, extract_file_arch pe = [(Arch a, 0)])
  ∧ (CLR_32BITREQUIRED (Flags pe) = true → PE_TYPE pe = Some OPTIONAL_HEADER_MAGIC_PE →
     extract_file_arch pe = [(Arch ARCH_I386, 0)])
  ∧ (CLR_32BITREQUIRED (Flags pe) = false → PE_TYPE pe = Some OPTIONAL_HEADER_MAGIC_PE_PLUS →
     extract_file_arch pe = [(Arch ARCH_AMD64, 0)])
  ∧ (CLR_32BITREQUIRED (Flags pe) = true → PE_TYPE pe ≠ Some OPTIONAL_HEADER_MAGIC_PE →
     extract_file_arch pe = [(Arch ARCH_ANY, 0)])
  ∧ (CLR_32BITREQUIRED (Flags pe) = false → PE_TYPE pe ≠ Some OPTIONAL_HEADER_MAGIC_PE_PLUS →
     extract_file_arch pe = [(Arch ARCH_ANY, 0)]).
Proof.
  unfold extract_file_arch.
  destruct (CLR_32BITREQUIRED (Flags pe)); simpl.
  - destruct (PE_TYPE_is pe OPTIONAL_HEADER_MAGIC_PE) eqn:E.
    + apply PE_TYPE_is_true in E. repeat split; eauto; congruence.
    + apply PE_TYPE_is_false in E. repeat split; eauto; congruence.
  - destruct (PE_TYPE_is pe OPTIONAL_HEADER_MAGIC_PE_PLUS) eqn:E.
    + apply PE_TYPE_is_true in E. repeat split; eauto; congruence.
    + apply PE_TYPE_is_false in E. repeat split; eauto; congruence.
Qed.

(** The four combinations of the flag with the two header kinds, one by one. *)
Lemma extract_file_arch_four_cases (pe : dnPE) (required : bool) (plus : bool) :
  CLR_32BITREQUIRED (Flags pe) = required →
  PE_TYPE pe = Some (if plus then OPTIONAL_HEADER_MAGIC_PE_PLUS else OPTIONAL_HEADER_MAGIC_PE) →
  extract_file_arch pe =
    [(Arch (match required, plus with
            | true, false => ARCH_I386
            | false, true => ARCH_AMD64
            | _, _ => ARCH_ANY
            end), 0)].
Proof.
  intros Hr Ht. unfold extract_file_arch, PE_TYPE_is. rewrite Hr, Ht.
  destruct required, plus; reflexivity.
Qed.

(** ** Base address and OS *)

(** C9: [get_base_address] returns 0 for every extractor, and the OS rule
    yields exactly one feature, tagged "any", at address 0; it is the first
    rule of the global stream, which holds no other OS feature. *)
Theorem base_address_and_os (self : DotnetFileFeatureExtractor.t) :
  DotnetFileFeatureExtractor.get_base_address self = 0
  ∧ extract_file_os = [(OS OS_ANY, 0)]
  ∧ ∃ a, DotnetFileFeatureExtractor.extract_global_features self
         = [(OS OS_ANY, 0); (Arch a, 0)].
Proof.
  split; [reflexivity|]. split; [reflexivity|].
  destruct (extract_file_arch_single (DotnetFileFeatureExtractor.pe self)) as [a Ha].
  exists a. unfold DotnetFileFeatureExtractor.extract_global_features,
    extract_global_features, GLOBAL_HANDLERS.
  rewrite bind_cons, bind_singleton, Ha. reflexivity.
Qed.

(** ** Function level operations *)

Lemma raise_unsupported {A : Type} (msg : string) :
  unsupported_operation (inl (NotImplementedError msg) : py_result A).
Proof.
  split.
  - exists msg. reflexivity.
  - intros v Hv. unfold returns in Hv. discriminate Hv.
Qed.

(** C7: on every extractor and for all arguments, each of the eight
    function, basic block and instruction level operations fails with the
    unsupported-operation error (Python's [NotImplementedError]) and returns no
    value. *)
Theorem function_level_operations_raise (self : DotnetFileFeatureExtractor.t) :
  (∀ R, unsupported_operation (DotnetFileFeatureExtractor.get_functions (R:=R) self))
  ∧ (∀ F R (f : F),
       unsupported_operation (DotnetFileFeatureExtractor.extract_function_features (R:=R) self f))
  ∧ (∀ F R (f : F),
       unsupported_operation (DotnetFileFeatureExtractor.get_basic_blocks (R:=R) self f))
  ∧ (∀ F B R (f : F) (bb : B),
       unsupported_operation (DotnetFileFeatureExtractor.extract_basic_block_features (R:=R) self f bb))
  ∧ (∀ F B R (f : F) (bb : B),
       unsupported_operation (DotnetFileFeatureExtractor.get_instructions (R:=R) self f bb))
  ∧ (∀ F B I R (f : F) (bb : B) (insn : I),
       unsupported_operation (DotnetFileFeatureExtractor.extract_insn_features (R:=R) self f bb insn))
  ∧ (∀ V R (va : V),
       unsupported_operation (DotnetFileFeatureExtractor.is_library_function (R:=R) self va))
  ∧ (∀ V R (va : V),
       unsupported_operation (DotnetFileFeatureExtractor.get_function_name (R:=R) self va)).
Proof. repeat split; intros; apply raise_unsupported. Qed.

(** ** Mixed mode *)

Example mixed_mode_samples :
  extract_file_mixed_mode_characteristic_features sample_pe = []
  ∧ extract_file_mixed_mode_characteristic_features mixed_pe = [(Characteristic "mixed mode", 0)]
  ∧ DotnetFileFeatureExtractor.is_mixed_mode sample_extractor = false
  ∧ DotnetFileFeatureExtractor.is_mixed_mode mixed_extractor = true.
Proof. repeat split. Qed.

(** C6: the mixed-mode rule emits the "mixed mode" characteristic, at
    address 0, exactly when the IL-only flag is absent; with the flag set it
    emits nothing; and [is_mixed_mode] of the extractor is true under the same
    condition. *)
Theorem mixed_mode_characteristic_spec (self : DotnetFileFeatureExtractor.t) :
  let pe := DotnetFileFeatureExtractor.pe self in
  let out := extract_file_mixed_mode_characteristic_features pe in
  ((Characteristic "mixed mode", 0) ∈ out ↔ CLR_ILONLY (Flags pe) = false)
  ∧ (CLR_ILONLY (Flags pe) = false → out = [(Characteristic "mixed mode", 0)])
  ∧ (CLR_ILONLY (Flags pe) = true → out = [])
  ∧ (DotnetFileFeatureExtractor.is_mixed_mode self = true ↔ CLR_ILONLY (Flags pe) = false).
Proof.
  intros pe out. subst out.
  unfold DotnetFileFeatureExtractor.is_mixed_mode,
    extract_file_mixed_mode_characteristic_features, is_dotnet_mixed_mode.
  fold pe. destruct (CLR_ILONLY (Flags pe)); simpl.
  - repeat split; try done. intros Hin. by apply elem_of_nil in Hin.
  - repeat split; try done. intros _. apply list_elem_of_singleton. reflexivity.
Qed.

(** ** Classes *)

Lemma iter_dotnet_table_present pe name i row :
  iter_dotnet_table pe name !! i = Some row →
  ∃ t, mdtables pe !! name = Some t
       ∧ rows t !! i = Some row
       ∧ mdtable_number pe name = number t.
Proof.
  unfold iter_dotnet_table, mdtable_number.
  destruct (mdtables pe !! name) as [t|]; intros Hrow.
  - exists t. auto.
  - rewrite lookup_nil in Hrow. discriminate.
Qed.

Lemma extract_file_class_features_unfold pe :
  extract_file_class_features pe
  = class_features_of pe "TypeDef" ++ class_features_of pe "TypeRef".
Proof. reflexivity. Qed.

Lemma class_features_of_lookup pe name i row :
  iter_dotnet_table pe name !! i = Some row →
  class_features_of pe name !! i
  = Some (Class (class_name_of row),
          calculate_dotnet_token_value (mdtable_number pe name) (Z.of_nat i + 1)).
Proof.
  intros Hrow. unfold class_features_of.
  rewrite list_lookup_imap, Hrow. reflexivity.
Qed.

Lemma class_features_of_length pe name :
  length (class_features_of pe name) = length (iter_dotnet_table pe name).
Proof. unfold class_features_of. apply length_imap. Qed.

Lemma class_features_of_names pe name :
  (class_features_of pe name).*1 = map (fun row => Class (class_name_of row)) (iter_dotnet_table pe name).
Proof.
  unfold class_features_of.
  apply list_eq. intros i.
  rewrite list_lookup_fmap, list_lookup_imap, (list_lookup_fmap _ (iter_dotnet_table pe name)).
  destruct (iter_dotnet_table pe name !! i); reflexivity.
Qed.

Example extract_file_class_features_sample :
  extract_file_class_features sample_pe
  = [ (Class "<Module>", 0x02000001);
      (Class "Acme.Tools.Program", 0x02000002);
      (Class "Acme.Tools.Program", 0x02000003);
      (Class "System.Object", 0x01000001);
      (Class "Acme.Tools.Plugin", 0x01000002) ].
Proof. vm_compute. reflexivity. Qed.

(** C3: for every TypeDef row and every TypeRef row the class rule emits a
    Class feature, named after the row, whose token is
    [(table_id << 24) | row_index], where [table_id] is the identifier of the
    row's own table and [row_index >= 1] is the row's position in that table
    counted from 1; the TypeDef rows come first in the stream, the TypeRef
    rows after them, and nothing else is emitted. *)
Theorem class_feature_tokens (pe : dnPE) :
  (∀ (i : nat) (row : TypeRow),
      iter_dotnet_table pe "TypeDef" !! i = Some row →
      ∃ (t : MDTable) (row_index : Z),
        mdtables pe !! "TypeDef" = Some t
        ∧ rows t !! i = Some row
        ∧ row_index = Z.of_nat i + 1 ∧ 1 ≤ row_index
        ∧ extract_file_class_features pe !! i
          = Some (Class (class_name_of row), Z.lor (Z.shiftl (number t) 24) row_index))
  ∧ (∀ (i : nat) (row : TypeRow),
      iter_dotnet_table pe "TypeRef" !! i = Some row →
      ∃ (t : MDTable) (row_index : Z),
        mdtables pe !! "TypeRef" = Some t
        ∧ rows t !! i = Some row
        ∧ row_index = Z.of_nat i + 1 ∧ 1 ≤ row_index
        ∧ extract_file_class_features pe !! (length (iter_dotnet_table pe "TypeDef") + i)%nat
          = Some (Class (class_name_of row), Z.lor (Z.shiftl (number t) 24) row_index))
  ∧ length (extract_file_class_features pe)
    = (length (iter_dotnet_table pe "TypeDef") + length (iter_dotnet_table pe "TypeRef"))%nat.
Proof.
  rewrite extract_file_class_features_unfold. split; [|split].
  - intros i row Hrow.
    destruct (iter_dotnet_table_present _ _ _ _ Hrow) as (t & Ht & Hr & Hn).
    exists t, (Z.of_nat i + 1).
    split; [done|]. split; [done|]. split; [done|]. split; [lia|].
    rewrite lookup_app_l.
    + rewrite (class_features_of_lookup _ _ _ _ Hrow), Hn. reflexivity.
    + rewrite class_features_of_length. by eapply lookup_lt_Some.
  - intros i row Hrow.
    destruct (iter_dotnet_table_present _ _ _ _ Hrow) as (t & Ht & Hr & Hn).
    exists t, (Z.of_nat i + 1).
    split; [done|]. split; [done|]. split; [done|]. split; [lia|].
    rewrite <- (class_features_of_length pe "TypeDef").
    rewrite lookup_app_r by lia.
    replace (length (class_features_of pe "TypeDef") + i - length (class_features_of pe "TypeDef"))%nat
      with i by lia.
    rewrite (class_features_of_lookup _ _ _ _ Hrow), Hn. reflexivity.
  - rewrite length_app, !class_features_of_length. reflexivity.
Qed.

(** The second TypeRef row of the sample: position 1 in its table, position
    4 in the stream, token [(1 << 24) | 2]. *)
Lemma class_feature_tokens_witness :
  extract_file_class_features sample_pe !! 4%nat = Some (Class "Acme.Tools.Plugin", 0x01000002).
Proof.
  destruct (class_feature_tokens sample_pe) as (_ & Href & _).
  destruct (Href 1%nat {| TypeNamespace := "Acme.Tools"; TypeName := "Plugin" |} eq_refl)
    as (t & row_index & Ht & _ & -> & _ & Hout).
  vm_compute in Ht. injection Ht as <-. exact Hout.
Defined.

(** Counting a feature in a stream whose features are the image of a list. *)
Lemma count_feature_image {A : Type} (g : A → Feature) (P : A → Prop)
    `{!∀ x, Decision (P x)} (f : Feature) (l : list A) (out : list yielded) :
  out.*1 = map g l →
  (∀ x, g x = f ↔ P x) →
  count_feature f out = length (filter P l).
Proof.
  intros Hout HP. unfold count_feature.
  revert out Hout. induction l as [|x l IH]; intros out Hout.
  - destruct out; [reflexivity | discriminate].
  - destruct out as [|y out]; [discriminate|].
    simpl in Hout. injection Hout as Hy Hout.
    rewrite !filter_cons.
    destruct (decide (y.1 = f)) as [Hf|Hf], (decide (P x)) as [Hx|Hx]; simpl.
    + f_equal. by apply IH.
    + exfalso. apply Hx, HP. congruence.
    + exfalso. apply Hf. rewrite Hy. by apply HP.
    + by apply IH.
Qed.

Lemma extract_file_class_features_names pe :
  (extract_file_class_features pe).*1
  = map (fun row => Class (class_name_of row))
        (iter_dotnet_table pe "TypeDef" ++ iter_dotnet_table pe "TypeRef").
Proof.
  rewrite extract_file_class_features_unfold.
  rewrite fmap_app, !class_features_of_names, map_app. reflexivity.
Qed.

(** C4, as the code does not do it: in the sample, the TypeDef rows at
    positions 1 and 2 format to the same type name, and the stream holds two
    Class features of that name, not one. *)
Lemma class_features_not_deduplicated :
  let row := {| TypeNamespace := "Acme.Tools"; TypeName := "Program" |} in
  iter_dotnet_table sample_pe "TypeDef" !! 1%nat = Some row
  ∧ iter_dotnet_table sample_pe "TypeDef" !! 2%nat = Some row
  ∧ class_name_of row = "Acme.Tools.Program"
  ∧ count_feature (Class "Acme.Tools.Program") (extract_file_class_features sample_pe) = 2%nat.
Proof. vm_compute. repeat split. Qed.

(** C4, amended: class features are not deduplicated by value.  The class
    rule emits one Class feature per TypeDef row and per TypeRef row, in
    table order, so a type name is emitted as many times as there are rows
    that format to it. *)
Theorem class_features_one_per_row (pe : dnPE) :
  let table_rows := iter_dotnet_table pe "TypeDef" ++ iter_dotnet_table pe "TypeRef" in
  (extract_file_class_features pe).*1 = map (fun row => Class (class_name_of row)) table_rows
  ∧ ∀ name : string,
      count_feature (Class name) (extract_file_class_features pe)
      = length (filter (fun row => class_name_of row = name) table_rows).
Proof.
  intros table_rows. split.
  - apply extract_file_class_features_names.
  - intros name.
    apply (count_feature_image (fun row => Class (class_name_of row))).
    + apply extract_file_class_features_names.
    + intros row. split; [intros [= ->]; reflexivity | intros ->; reflexivity].
Qed.

(** ** Namespaces *)

Lemma elem_of_add_loop (l : list TypeRow) (acc : gset string) (ns : string) :
  ns ∈ foldl (fun acc row => set_add acc (TypeNamespace row)) acc l
  ↔ ns ∈ acc ∨ ∃ row, row ∈ l ∧ TypeNamespace row = ns.
Proof.
  revert acc. induction l as [|row l IH]; intros acc; simpl.
  - split; [auto|]. intros [Hacc | (row & Hrow & _)]; [done|].
    by apply elem_of_nil in Hrow.
  - rewrite IH. unfold set_add. rewrite elem_of_union, elem_of_singleton. split.
    + intros [[Hacc | ->] | (row' & Hrow' & Hns)].
      * by left.
      * right. exists row. split; [apply list_elem_of_here | reflexivity].
      * right. exists row'. split; [by apply list_elem_of_further | done].
    + intros [Hacc | (row' & Hrow' & Hns)]; [by left; left|].
      apply elem_of_cons in Hrow' as [-> | Hrow'].
      * left; right. done.
      * right. by exists row'.
Qed.

Lemma elem_of_namespaces_of (pe : dnPE) (ns : string) :
  ns ∈ namespaces_of pe ↔ ns ≠ "" ∧ namespace_occurs pe ns.
Proof.
  unfold namespaces_of, namespace_occurs, set_discard.
  rewrite elem_of_difference, elem_of_singleton, !elem_of_add_loop.
  split.
  - intros [[[Hempty | (row & Hrow & Hns)] | (row & Hrow & Hns)] Hne].
    + by apply not_elem_of_empty in Hempty.
    + split; [done|]. exists row. split; [|done]. apply elem_of_app. by left.
    + split; [done|]. exists row. split; [|done]. apply elem_of_app. by right.
  - intros [Hne (row & Hrow & Hns)]. split; [|done].
    apply elem_of_app in Hrow as [Hrow | Hrow].
    + left; right. by exists row.
    + right. by exists row.
Qed.

Section namespaces.
Context `{O : SetOrder} (lawful : set_iter_lawful O).

Lemma elem_of_set_iter (s : gset string) (x : string) : x ∈ set_iter s ↔ x ∈ s.
Proof. rewrite (lawful s). apply elem_of_elements. Qed.

Lemma NoDup_set_iter (s : gset string) : NoDup (set_iter s).
Proof. rewrite (lawful s). apply NoDup_elements. Qed.

Lemma extract_file_namespace_features_unfold pe :
  extract_file_namespace_features pe
  = map (fun namespace => (Namespace namespace, 0)) (set_iter (namespaces_of pe)).
Proof. reflexivity. Qed.

Lemma extract_file_namespace_features_names pe :
  (extract_file_namespace_features pe).*1 = map Namespace (set_iter (namespaces_of pe)).
Proof.
  rewrite extract_file_namespace_features_unfold.
  induction (set_iter (namespaces_of pe)) as [|x l IH]; [reflexivity|].
  simpl. f_equal. exact IH.
Qed.
End namespaces.

Lemma count_NoDup (l : list string) (x : string) :
  NoDup l → length (filter (fun y => y = x) l) = if decide (x ∈ l) then 1%nat else 0%nat.
Proof.
  induction 1 as [|y l Hy Hl IH].
  - reflexivity.
  - rewrite filter_cons. destruct (decide (y = x)) as [->|Hne]; simpl.
    + rewrite IH. rewrite decide_False by done.
      rewrite decide_True by apply list_elem_of_here. reflexivity.
    + rewrite IH. destruct (decide (x ∈ l)) as [Hin|Hin].
      * rewrite decide_True by (by apply list_elem_of_further). reflexivity.
      * rewrite decide_False; [reflexivity|].
        intros [Heq|Hin']%elem_of_cons; [by apply Hne | by apply Hin].
Qed.

Example extract_file_namespace_features_sample :
  extract_file_namespace_features (O:=elements_order) sample_pe
  ≡ₚ [ (Namespace "Acme.Tools", 0); (Namespace "System", 0) ].
Proof. vm_compute. first [reflexivity | apply perm_swap]. Qed.

(** C2: whatever order the set is visited in, the namespace rule yields no
    pair twice; the pairs it yields are exactly the Namespace features, at
    address 0, of the non-empty namespace strings that occur in a TypeDef or
    TypeRef row; each such namespace is emitted exactly once, however many
    rows of either table carry it, and the empty namespace is not emitted. *)
Theorem namespace_features_spec `{O : SetOrder} (pe : dnPE) :
  set_iter_lawful O →
  let out := extract_file_namespace_features pe in
  NoDup out
  ∧ (∀ y, y ∈ out ↔ ∃ ns, y = (Namespace ns, 0) ∧ ns ≠ "" ∧ namespace_occurs pe ns)
  ∧ (∀ ns, ns ≠ "" → namespace_occurs pe ns → count_feature (Namespace ns) out = 1%nat)
  ∧ (∀ a, count_feature (Namespace "") out = 0%nat ∧ (Namespace "", a) ∉ out).
Proof.
  intros lawful out.
  assert (Hcount : ∀ ns, count_feature (Namespace ns) out
                         = if decide (ns ∈ set_iter (namespaces_of pe)) then 1%nat else 0%nat).
  { intros ns. rewrite <- (count_NoDup _ _ (NoDup_set_iter lawful _)).
    apply (count_feature_image Namespace).
    - by apply extract_file_namespace_features_names.
    - intros x. split; [by intros [= ->] | by intros ->]. }
  assert (Hin : ∀ y, y ∈ out ↔ ∃ ns, y = (Namespace ns, 0) ∧ ns ≠ "" ∧ namespace_occurs pe ns).
  { intros y. subst out. rewrite extract_file_namespace_features_unfold.
    rewrite list_elem_of_fmap. split.
    - intros (ns & -> & Hns). exists ns. split; [done|].
      by apply elem_of_namespaces_of, (elem_of_set_iter lawful).
    - intros (ns & -> & Hne & Hocc). exists ns. split; [done|].
      by apply (elem_of_set_iter lawful), elem_of_namespaces_of. }
  split; [|split; [exact Hin|split]].
  - subst out. rewrite extract_file_namespace_features_unfold.
    apply NoDup_fmap_2; [|by apply NoDup_set_iter].
    intros x y [= ->]. reflexivity.
  - intros ns Hne Hocc. rewrite Hcount, decide_True; [reflexivity|].
    by apply (elem_of_set_iter lawful), elem_of_namespaces_of.
  - intros a. split.
    + rewrite Hcount, decide_False; [reflexivity|].
      intros [Hne _]%(elem_of_set_iter lawful)%elem_of_namespaces_of. by apply Hne.
    + intros (ns & [= <- ->] & Hne & _)%Hin. by apply Hne.
Qed.

(** The sample shares "Acme.Tools" between two TypeDef rows and a TypeRef
    row, and its first TypeDef row has the empty namespace. *)
Lemma namespace_features_spec_witness :
  set_iter_lawful elements_order
  ∧ count_feature (Namespace "Acme.Tools")
      (extract_file_namespace_features (O:=elements_order) sample_pe) = 1%nat.
Proof.
  assert (lawful : set_iter_lawful elements_order) by (intros s; reflexivity).
  split; [exact lawful|].
  apply (namespace_features_spec (O:=elements_order) sample_pe lawful).
  - discriminate.
  - exists {| TypeNamespace := "Acme.Tools"; TypeName := "Plugin" |}.
    split; [|reflexivity]. vm_compute.
    do 4 apply list_elem_of_further. apply list_elem_of_here.
Defined.

(** ** Imports *)

Example extract_file_import_names_sample :
  extract_file_import_names (H:=sample_helpers) sample_pe
  = [ (Import "System.IO.File::OpenRead", 0x0A000001);
      (Import "CreateFile", 0x06000002);
      (Import "CreateFileA", 0x06000002);
      (Import "CreateFileW", 0x06000002) ].
Proof. reflexivity. Qed.

(** C5: for every unmanaged import that the resolver returns, every name
    variant generated from the import's module and symbol is emitted as an
    Import feature with the import's own token, so all variants of one import
    share that token. *)
Theorem unmanaged_import_variants_share_token `{H : Helpers}
    (pe : dnPE) (imp : DnUnmanagedMethod) (name : string) :
  imp ∈ get_dotnet_unmanaged_imports pe →
  name ∈ generate_symbols (modulename imp) (methodname imp) →
  (Import name, token imp) ∈ extract_file_import_names pe.
Proof.
  intros Himp Hname. unfold extract_file_import_names.
  apply elem_of_app. right.
  apply list_elem_of_bind. exists imp. split; [|done].
  apply list_elem_of_bind. exists name. split; [|done].
  apply list_elem_of_here.
Qed.

(** The three variants of the sample's one P/Invoke import. *)
Lemma unmanaged_import_variants_share_token_witness :
  let imp := {| token := 0x06000002; modulename := "kernel32.dll"; methodname := "CreateFile" |} in
  let out := extract_file_import_names (H:=sample_helpers) sample_pe in
  (Import "CreateFile", 0x06000002) ∈ out
  ∧ (Import "CreateFileA", 0x06000002) ∈ out
  ∧ (Import "CreateFileW", 0x06000002) ∈ out.
Proof.
  intros imp out.
  assert (Himp : imp ∈ get_dotnet_unmanaged_imports (Helpers:=sample_helpers) sample_pe)
    by apply list_elem_of_here.
  split; [|split].
  - apply (unmanaged_import_variants_share_token (H:=sample_helpers) sample_pe imp "CreateFile" Himp).
    apply list_elem_of_here.
  - apply (unmanaged_import_variants_share_token (H:=sample_helpers) sample_pe imp "CreateFileA" Himp).
    apply list_elem_of_further, list_elem_of_here.
  - apply (unmanaged_import_variants_share_token (H:=sample_helpers) sample_pe imp "CreateFileW" Himp).
    do 2 apply list_elem_of_further. apply list_elem_of_here.
Defined.

(** Nothing but managed imports and variants of unmanaged imports is emitted
    by the import rule. *)
Lemma extract_file_import_names_inv `{H : Helpers} (pe : dnPE) (y : yielded) :
  y ∈ extract_file_import_names pe →
  (∃ method, method ∈ get_dotnet_managed_imports pe
             ∧ y = (Import (DnMethod_str method), method_token method))
  ∨ (∃ imp name, imp ∈ get_dotnet_unmanaged_imports pe
                 ∧ name ∈ generate_symbols (modulename imp) (methodname imp)
                 ∧ y = (Import name, token imp)).
Proof.
  unfold extract_file_import_names.
  intros [Hy | Hy]%elem_of_app.
  - left. apply list_elem_of_bind in Hy as (method & Hy & Hm).
    apply list_elem_of_singleton in Hy. by exists method.
  - right. apply list_elem_of_bind in Hy as (imp & Hy & Himp).
    apply list_elem_of_bind in Hy as (name & Hy & Hname).
    apply list_elem_of_singleton in Hy. by exists imp, name.
Qed.

(** ** Determinism *)

Lemma elements_order_lawful : set_iter_lawful elements_order.
Proof. intros s. reflexivity. Qed.

Lemma reversed_order_lawful : set_iter_lawful reversed_order.
Proof. intros s. simpl. apply reverse_Permutation. Qed.

Lemma extract_file_namespace_features_order (O1 O2 : SetOrder) (pe : dnPE) :
  set_iter_lawful O1 → set_iter_lawful O2 →
  extract_file_namespace_features (O:=O1) pe ≡ₚ extract_file_namespace_features (O:=O2) pe.
Proof.
  intros lawful1 lawful2. rewrite !extract_file_namespace_features_unfold.
  apply fmap_Permutation.
  rewrite (lawful1 (namespaces_of pe)), (lawful2 (namespaces_of pe)). reflexivity.
Qed.

Lemma extract_global_features_unfold (pe : dnPE) :
  extract_global_features pe = extract_file_os ++ extract_file_arch pe.
Proof.
  unfold extract_global_features, GLOBAL_HANDLERS.
  rewrite bind_cons, bind_singleton. reflexivity.
Qed.

(** C10: the pairs a call emits are a function of the parsed input.  Two
    calls of [extract_file_features] on the same parsed binary, whatever the
    order each visits the namespace set in, emit the same pairs with the same
    multiplicities (one stream is a permutation of the other); and two calls
    of [extract_global_features] on binaries that agree on the 32-bit-required
    flag and on the optional-header kind emit the same stream. *)
Theorem extraction_is_deterministic `{H : Helpers} (O1 O2 : SetOrder) (pe pe' : dnPE) :
  set_iter_lawful O1 → set_iter_lawful O2 →
  extract_file_features (O:=O1) pe ≡ₚ extract_file_features (O:=O2) pe
  ∧ (CLR_32BITREQUIRED (Flags pe) = CLR_32BITREQUIRED (Flags pe') →
     PE_TYPE pe = PE_TYPE pe' →
     extract_global_features pe = extract_global_features pe').
Proof.
  intros lawful1 lawful2. split.
  - unfold extract_file_features, FILE_HANDLERS.
    rewrite !bind_cons.
    do 5 (apply Permutation_app; [reflexivity|]).
    apply Permutation_app; [|reflexivity].
    by apply extract_file_namespace_features_order.
  - intros Hflag Htype. rewrite !extract_global_features_unfold.
    unfold extract_file_arch, PE_TYPE_is. rewrite Hflag, Htype. reflexivity.
Qed.

(** The two orders visit the namespaces of the sample in opposite
    directions, and [bare_pe] shares only the two header fields with it. *)
Lemma extraction_is_deterministic_witness :
  set_iter_lawful elements_order
  ∧ set_iter_lawful reversed_order
  ∧ set_iter (SetOrder:=elements_order) (namespaces_of sample_pe)
    ≠ set_iter (SetOrder:=reversed_order) (namespaces_of sample_pe)
  ∧ extract_file_features (H:=sample_helpers) (O:=elements_order) sample_pe
    ≡ₚ extract_file_features (H:=sample_helpers) (O:=reversed_order) sample_pe
  ∧ extract_global_features sample_pe = extract_global_features bare_pe.
Proof.
  split; [exact elements_order_lawful|].
  split; [exact reversed_order_lawful|].
  split; [vm_compute; discriminate|].
  destruct (extraction_is_deterministic (H:=sample_helpers) elements_order reversed_order
              sample_pe bare_pe elements_order_lawful reversed_order_lawful) as [Hfile Hglobal].
  split; [exact Hfile|].
  apply Hglobal; reflexivity.
Defined.

(** ** The metadata version string *)

Example decode_utf8_samples :
  decode_utf8 [x76; x34] = Some [0x76; 0x34]
  ∧ decode_utf8 [xc3; xa9] = Some [0xE9]
  ∧ decode_utf8 [xe2; x82; xac] = Some [0x20AC]
  ∧ decode_utf8 [xf0; x9f; x98; x80] = Some [0x1F600]
  ∧ decode_utf8 [xc0; x80] = None
  ∧ decode_utf8 [xe0; x80; x80] = None
  ∧ decode_utf8 [xed; xa0; x80] = None
  ∧ decode_utf8 [xf4; x90; x80; x80] = None
  ∧ decode_utf8 [xe2; x82] = None
  ∧ decode_utf8 [x80] = None.
Proof. vm_compute. repeat split. Qed.

Example rstrip_nul_samples :
  rstrip_nul [x76; x00; x34; x00; x00] = [x76; x00; x34]
  ∧ rstrip_nul [x00; x00] = []
  ∧ rstrip_nul sample_version = [x76; x34; x2e; x30; x2e; x33; x30; x33; x31; x39].
Proof. repeat split. Qed.

Lemma byte_val_range (b : byte) : 0 ≤ byte_val b < 256.
Proof. unfold byte_val. pose proof (Byte.to_N_bounded b). lia. Qed.

(** What [rstrip_nul] keeps and what it drops. *)
Lemma rstrip_nul_spec (bs : list byte) :
  ∃ k : nat, bs = rstrip_nul bs ++ replicate k x00.
Proof.
  induction bs as [|b rest [k IH]]; simpl.
  - by exists 0%nat.
  - destruct (rstrip_nul rest) as [|b' kept] eqn:E.
    + destruct (Byte.eqb b x00) eqn:Eb.
      * apply Byte.byte_dec_bl in Eb as ->. exists (S k). simpl. by rewrite IH at 1.
      * exists k. simpl. by rewrite IH at 1.
    + exists k. simpl. by rewrite IH at 1.
Qed.

Lemma rstrip_nul_last (bs : list byte) : last (rstrip_nul bs) ≠ Some x00.
Proof.
  induction bs as [|b rest IH]; simpl; [done|].
  destruct (rstrip_nul rest) as [|b' kept] eqn:E.
  - destruct (Byte.eqb b x00) eqn:Eb; [done|].
    simpl. intros [= ->]. by rewrite Byte.byte_dec_lb in Eb.
  - rewrite last_cons. destruct (last (b' :: kept)) eqn:El; [done|].
    by rewrite last_None in El.
Qed.

Lemma elem_of_rstrip_nul (bs : list byte) (b : byte) :
  b ∈ bs → b ≠ x00 → b ∈ rstrip_nul bs.
Proof.
  intros Hb Hne. destruct (rstrip_nul_spec bs) as [k Hk].
  rewrite Hk in Hb. apply elem_of_app in Hb as [Hb | Hb]; [done|].
  apply elem_of_replicate in Hb as [-> _]. done.
Qed.

Lemma Forall_rstrip_nul (P : byte → Prop) (bs : list byte) :
  Forall P bs → Forall P (rstrip_nul bs).
Proof.
  intros HP. destruct (rstrip_nul_spec bs) as [k Hk].
  rewrite Hk in HP. by apply Forall_app in HP as [HP _].
Qed.

Lemma decode_utf8_ascii (bs : list byte) :
  Forall ascii_byte bs → decode_utf8 bs = Some (map byte_val bs).
Proof.
  induction 1 as [|b bs Hb _ IH]; simpl; [reflexivity|].
  unfold ascii_byte in Hb.
  destruct (Z.ltb_spec (byte_val b) 0x80) as [_|Hge]; [|lia].
  rewrite IH. reflexivity.
Qed.

Lemma decode_utf8_never_valid (bs : list byte) (b : byte) :
  b ∈ bs → never_valid b → decode_utf8 bs = None.
Proof.
  intros Hin Hbad.
  remember (length bs) as n eqn:Hn.
  assert (Hle : (length bs ≤ n)%nat) by lia. clear Hn.
  revert bs Hin Hle. induction n as [|n IH]; intros bs Hin Hle.
  { destruct bs; [by apply elem_of_nil in Hin | simpl in Hle; lia]. }
  assert (Hrec : ∀ rest, (length rest ≤ n)%nat → b ∈ rest →
                         ∀ c : Z, cons c <$> decode_utf8 rest = None).
  { intros rest Hlen Hrest c. by rewrite (IH rest Hrest Hlen). }
  unfold never_valid in Hbad.
  destruct bs as [|b0 r0]; [by apply elem_of_nil in Hin|].
  simpl in Hle. simpl.
  apply elem_of_cons in Hin.
  destruct (byte_val b0 <? 128) eqn:E1.
  { range_facts. destruct Hin as [-> | Hin]; [lia|]. apply Hrec; [lia | done]. }
  destruct (in_range 194 223 (byte_val b0)) eqn:E2.
  { destruct Hin as [-> | Hin]; [range_facts; lia|].
    destruct r0 as [|b1 r1]; [done|].
    destruct (continuation b1) eqn:C1; [|done].
    simpl in Hle. apply elem_of_cons in Hin as [-> | Hin]; [range_facts; lia|].
    apply Hrec; [lia | done]. }
  destruct (in_range 224 239 (byte_val b0)) eqn:E3.
  { destruct Hin as [-> | Hin]; [range_facts; lia|].
    destruct r0 as [|b1 [|b2 r2]]; [done | done |].
    match goal with |- (if ?c then _ else _) = None => destruct c eqn:C end; [|done].
    simpl in Hle.
    apply elem_of_cons in Hin as [-> | Hin]; [range_facts; lia|].
    apply elem_of_cons in Hin as [-> | Hin]; [range_facts; lia|].
    apply Hrec; [lia | done]. }
  destruct (in_range 240 244 (byte_val b0)) eqn:E4; [|done].
  destruct Hin as [-> | Hin]; [range_facts; lia|].
  destruct r0 as [|b1 [|b2 [|b3 r3]]]; [done | done | done |].
  match goal with |- (if ?c then _ else _) = None => destruct c eqn:C end; [|done].
  simpl in Hle.
  apply elem_of_cons in Hin as [-> | Hin]; [range_facts; lia|].
  apply elem_of_cons in Hin as [-> | Hin]; [range_facts; lia|].
  apply elem_of_cons in Hin as [-> | Hin]; [range_facts; lia|].
  apply Hrec; [lia | done].
Qed.

Example get_meta_version_string_sample :
  DotnetFileFeatureExtractor.get_meta_version_string sample_extractor
  = inr [0x76; 0x34; 0x2e; 0x30; 0x2e; 0x33; 0x30; 0x33; 0x31; 0x39].
Proof. reflexivity. Qed.

(** C8, as the code does not do it: the metadata version of [mixed_pe] is
    the byte of "v", the byte 0xFF and a NUL byte, which is not UTF-8; the call
    raises [UnicodeDecodeError] and returns no value, neither an empty nor a
    best-effort one. *)
Lemma get_meta_version_string_raises :
  Version (DotnetFileFeatureExtractor.pe mixed_extractor) = [x76; xff; x00]
  ∧ raises (DotnetFileFeatureExtractor.get_meta_version_string mixed_extractor) UnicodeDecodeError
  ∧ ∀ s, ¬ returns (DotnetFileFeatureExtractor.get_meta_version_string mixed_extractor) s.
Proof.
  split; [reflexivity|]. split; [reflexivity|].
  intros s Hs. vm_compute in Hs. discriminate Hs.
Qed.

(** C8, amended: [get_meta_version_string] decodes the metadata version
    bytes, with the trailing NUL bytes removed, as strict UTF-8.  It returns
    the decoded string when those bytes are well-formed UTF-8 (for a version
    made of ASCII bytes: those bytes as characters), and it raises
    [UnicodeDecodeError] when they are not, as whenever the version holds a
    byte that occurs in no UTF-8 string (0xC0, 0xC1, 0xF5 and above). *)
Theorem get_meta_version_string_spec (self : DotnetFileFeatureExtractor.t) :
  let raw := Version (DotnetFileFeatureExtractor.pe self) in
  let result := DotnetFileFeatureExtractor.get_meta_version_string self in
  (∃ k : nat, raw = rstrip_nul raw ++ replicate k x00 ∧ last (rstrip_nul raw) ≠ Some x00)
  ∧ (∀ s, decode_utf8 (rstrip_nul raw) = Some s → returns result s)
  ∧ (decode_utf8 (rstrip_nul raw) = None → raises result UnicodeDecodeError)
  ∧ (Forall ascii_byte raw → returns result (map byte_val (rstrip_nul raw)))
  ∧ (∀ b, b ∈ raw → never_valid b → raises result UnicodeDecodeError).
Proof.
  intros raw result. subst result.
  unfold DotnetFileFeatureExtractor.get_meta_version_string, raises, returns. fold raw.
  split; [|split; [|split; [|split]]].
  - destruct (rstrip_nul_spec raw) as [k Hk]. exists k.
    split; [exact Hk | apply rstrip_nul_last].
  - intros s ->. reflexivity.
  - intros ->. reflexivity.
  - intros Hascii.
    rewrite (decode_utf8_ascii _ (Forall_rstrip_nul _ _ Hascii)). reflexivity.
  - intros b Hb Hbad.
    rewrite (decode_utf8_never_valid (rstrip_nul raw) b); [reflexivity | | done].
    apply elem_of_rstrip_nul; [done|].
    intros ->. unfold never_valid in Hbad. vm_compute in Hbad.
    destruct Hbad as [Hbad | [Hbad | Hbad]]; try discriminate. by apply Hbad.
Qed.

(** The version of the sample is ASCII and ends in two NUL bytes; that of
    the mixed-mode sample holds the byte 0xFF. *)
Lemma get_meta_version_string_spec_witness :
  returns (DotnetFileFeatureExtractor.get_meta_version_string sample_extractor)
          (map byte_val [x76; x34; x2e; x30; x2e; x33; x30; x33; x31; x39])
  ∧ raises (DotnetFileFeatureExtractor.get_meta_version_string mixed_extractor) UnicodeDecodeError.
Proof.
  split.
  - destruct (get_meta_version_string_spec sample_extractor) as (_ & _ & _ & Hascii & _).
    apply Hascii. vm_compute.
    repeat (apply Forall_cons; split; [reflexivity|]). apply Forall_nil. done.
  - destruct (get_meta_version_string_spec mixed_extractor) as (_ & _ & _ & _ & Hbad).
    apply (Hbad xff).
    + apply list_elem_of_further, list_elem_of_here.
    + right; right. vm_compute. discriminate.
Defined.

(** * Further properties *)

(** ** Imports *)

(** X1: every pair the import rule emits is an Import feature that is
    either the printed name of a managed import with that import's token, or a
    name variant of an unmanaged import with that import's token. *)
Theorem import_names_origin `{H : Helpers} (pe : dnPE) (y : yielded) :
  y ∈ extract_file_import_names pe →
  (∃ method, method ∈ get_dotnet_managed_imports pe
             ∧ y = (Import (DnMethod_str method), method_token method))
  ∨ (∃ imp name, imp ∈ get_dotnet_unmanaged_imports pe
                 ∧ name ∈ generate_symbols (modulename imp) (methodname imp)
                 ∧ y = (Import name, token imp)).
Proof. apply extract_file_import_names_inv. Qed.

Lemma import_names_origin_witness :
  (∃ method, method ∈ get_dotnet_managed_imports (Helpers:=sample_helpers) sample_pe
             ∧ (Import "CreateFileA", 0x06000002)
               = (Import (DnMethod_str method), method_token method))
  ∨ (∃ imp name, imp ∈ get_dotnet_unmanaged_imports (Helpers:=sample_helpers) sample_pe
                 ∧ name ∈ generate_symbols (Helpers:=sample_helpers) (modulename imp) (methodname imp)
                 ∧ (Import "CreateFileA", 0x06000002) = (Import name, token imp)).
Proof.
  apply (import_names_origin (H:=sample_helpers) sample_pe).
  do 2 apply list_elem_of_further. apply list_elem_of_here.
Defined.

(** ** Tables without rows *)

Lemma set_iter_empty `{O : SetOrder} : set_iter_lawful O → set_iter ∅ = [].
Proof.
  intros lawful. apply Permutation_nil_r.
  rewrite (lawful ∅), elements_empty. reflexivity.
Qed.

(** X2: when neither the TypeDef nor the TypeRef table has a row (the
    tables are empty or the binary has none), the class rule and the namespace
    rule both yield nothing. *)
Theorem no_rows_no_type_features `{O : SetOrder} (pe : dnPE) :
  set_iter_lawful O →
  iter_dotnet_table pe "TypeDef" = [] →
  iter_dotnet_table pe "TypeRef" = [] →
  extract_file_class_features pe = [] ∧ extract_file_namespace_features pe = [].
Proof.
  intros lawful Hdef Href. split.
  - unfold extract_file_class_features. rewrite Hdef, Href. reflexivity.
  - unfold extract_file_namespace_features. rewrite Hdef, Href. simpl.
    replace (set_discard ∅ "") with (∅ : gset string)
      by (unfold set_discard; set_solver).
    rewrite (set_iter_empty lawful). reflexivity.
Qed.

Lemma no_rows_no_type_features_witness :
  extract_file_class_features bare_pe = []
  ∧ extract_file_namespace_features (O:=elements_order) bare_pe = [].
Proof.
  apply (no_rows_no_type_features (O:=elements_order) bare_pe elements_order_lawful);
    reflexivity.
Defined.

(** ** Namespaces against rows *)

Lemma size_add_loop (l : list TypeRow) (acc : gset string) :
  (size (foldl (fun acc row => set_add acc (TypeNamespace row)) acc l)
   ≤ size acc + length l)%nat.
Proof.
  revert acc. induction l as [|row l IH]; intros acc; simpl; [lia|].
  etrans; [apply IH|].
  assert ((size (set_add acc (TypeNamespace row)) ≤ size acc + 1)%nat); [|lia].
  unfold set_add. rewrite size_union_alt.
  assert ((size (({[TypeNamespace row]} : gset string) ∖ acc) ≤ 1)%nat); [|lia].
  rewrite <- (size_singleton (C:=gset string) (TypeNamespace row)).
  apply subseteq_size, subseteq_difference_l. reflexivity.
Qed.

Lemma size_namespaces_of (pe : dnPE) :
  (size (namespaces_of pe)
   ≤ length (iter_dotnet_table pe "TypeDef") + length (iter_dotnet_table pe "TypeRef"))%nat.
Proof.
  unfold namespaces_of, set_discard.
  etrans; [apply subseteq_size; apply subseteq_difference_l; reflexivity|].
  etrans; [apply size_add_loop|].
  pose proof (size_add_loop (iter_dotnet_table pe "TypeDef") ∅) as Hdef.
  rewrite size_empty in Hdef. lia.
Qed.

(** X3: the namespace rule never yields more features than the class rule:
    at most one per TypeDef or TypeRef row. *)
Theorem namespaces_at_most_rows `{O : SetOrder} (pe : dnPE) :
  set_iter_lawful O →
  (length (extract_file_namespace_features pe) ≤ length (extract_file_class_features pe))%nat
  ∧ length (extract_file_class_features pe)
    = (length (iter_dotnet_table pe "TypeDef") + length (iter_dotnet_table pe "TypeRef"))%nat.
Proof.
  intros lawful.
  assert (Hclass : length (extract_file_class_features pe)
                   = (length (iter_dotnet_table pe "TypeDef")
                      + length (iter_dotnet_table pe "TypeRef"))%nat).
  { rewrite extract_file_class_features_unfold, length_app, !class_features_of_length.
    reflexivity. }
  split; [|exact Hclass].
  rewrite Hclass, extract_file_namespace_features_unfold, length_map.
  rewrite (lawful (namespaces_of pe)).
  apply size_namespaces_of.
Qed.

(** Five rows, two namespaces. *)
Lemma namespaces_at_most_rows_witness :
  (length (extract_file_namespace_features (O:=reversed_order) sample_pe) ≤ 5)%nat.
Proof.
  destruct (namespaces_at_most_rows (O:=reversed_order) sample_pe reversed_order_lawful)
    as [Hle Hlen].
  rewrite Hlen in Hle. exact Hle.
Defined.

(** X4: the namespace features depend only on which namespaces occur in
    the two tables, not on the rows that carry them, their number, their order
    or their table: two binaries in which the same namespaces occur yield the
    same namespace features, up to the order of the stream. *)
Theorem namespaces_depend_on_occurrence (O1 O2 : SetOrder) (pe pe' : dnPE) :
  set_iter_lawful O1 → set_iter_lawful O2 →
  (∀ ns, namespace_occurs pe ns ↔ namespace_occurs pe' ns) →
  extract_file_namespace_features (O:=O1) pe ≡ₚ extract_file_namespace_features (O:=O2) pe'.
Proof.
  intros lawful1 lawful2 Hocc.
  assert (Hset : namespaces_of pe = namespaces_of pe').
  { apply set_eq. intros ns. rewrite !elem_of_namespaces_of, Hocc. reflexivity. }
  rewrite !extract_file_namespace_features_unfold, <- Hset.
  apply fmap_Permutation.
  rewrite (lawful1 (namespaces_of pe)), (lawful2 (namespaces_of pe)). reflexivity.
Qed.

Lemma regrouped_same_namespaces (ns : string) :
  namespace_occurs sample_pe ns ↔ namespace_occurs regrouped_pe ns.
Proof.
  unfold namespace_occurs. split; intros (row & Hrow & <-); vm_compute in Hrow.
  - repeat (apply elem_of_cons in Hrow as [-> | Hrow]);
      [| | | | | by apply elem_of_nil in Hrow]; simpl.
    + exists {| TypeNamespace := ""; TypeName := "<Module>" |}. split; [|done].
      vm_compute. do 2 apply list_elem_of_further. apply list_elem_of_here.
    + exists {| TypeNamespace := "Acme.Tools"; TypeName := "Program" |}. split; [|done].
      vm_compute. apply list_elem_of_further, list_elem_of_here.
    + exists {| TypeNamespace := "Acme.Tools"; TypeName := "Program" |}. split; [|done].
      vm_compute. apply list_elem_of_further, list_elem_of_here.
    + exists {| TypeNamespace := "System"; TypeName := "Object" |}. split; [|done].
      vm_compute. do 3 apply list_elem_of_further. apply list_elem_of_here.
    + exists {| TypeNamespace := "Acme.Tools"; TypeName := "Program" |}. split; [|done].
      vm_compute. apply list_elem_of_further, list_elem_of_here.
  - repeat (apply elem_of_cons in Hrow as [-> | Hrow]);
      [| | | | by apply elem_of_nil in Hrow]; simpl.
    + exists {| TypeNamespace := "System"; TypeName := "Object" |}. split; [|done].
      vm_compute. do 3 apply list_elem_of_further. apply list_elem_of_here.
    + exists {| TypeNamespace := "Acme.Tools"; TypeName := "Program" |}. split; [|done].
      vm_compute. apply list_elem_of_further, list_elem_of_here.
    + exists {| TypeNamespace := ""; TypeName := "<Module>" |}. split; [|done].
      vm_compute. apply list_elem_of_here.
    + exists {| TypeNamespace := "System"; TypeName := "Object" |}. split; [|done].
      vm_compute. do 3 apply list_elem_of_further. apply list_elem_of_here.
Defined.

Lemma namespaces_depend_on_occurrence_witness :
  extract_file_namespace_features (O:=elements_order) sample_pe
  ≡ₚ extract_file_namespace_features (O:=reversed_order) regrouped_pe.
Proof.
  apply (namespaces_depend_on_occurrence elements_order reversed_order sample_pe regrouped_pe
           elements_order_lawful reversed_order_lawful regrouped_same_namespaces).
Defined.

(** ** The file stream as a whole *)

Lemma count_feature_app (f : Feature) (l1 l2 : list yielded) :
  count_feature f (l1 ++ l2) = (count_feature f l1 + count_feature f l2)%nat.
Proof. unfold count_feature. rewrite filter_app, length_app. reflexivity. Qed.

Lemma count_feature_absent (f : Feature) (l : list yielded) :
  Forall (fun y => y.1 ≠ f) l → count_feature f l = 0%nat.
Proof.
  unfold count_feature. induction 1 as [|y l Hy _ IH]; [reflexivity|].
  rewrite filter_cons, decide_False by done. exact IH.
Qed.

Lemma count_feature_singleton (f g : Feature) (a : Z) :
  count_feature f [(g, a)] = if decide (g = f) then 1%nat else 0%nat.
Proof.
  unfold count_feature. rewrite filter_cons. simpl.
  destruct (decide (g = f)); reflexivity.
Qed.

Lemma extract_file_features_unfold `{H : Helpers} `{O : SetOrder} (pe : dnPE) :
  extract_file_features pe
  = extract_file_import_names pe
    ++ extract_file_function_names pe
    ++ extract_file_strings pe
    ++ extract_file_format
    ++ extract_file_mixed_mode_characteristic_features pe
    ++ extract_file_namespace_features pe
    ++ extract_file_class_features pe.
Proof.
  unfold extract_file_features, FILE_HANDLERS.
  rewrite !bind_cons. simpl. rewrite app_nil_r. reflexivity.
Qed.

Lemma import_names_kind `{H : Helpers} (pe : dnPE) :
  Forall (fun y : yielded => ∃ name, y.1 = Import name) (extract_file_import_names pe).
Proof.
  apply Forall_forall. intros y Hy.
  destruct (extract_file_import_names_inv pe y Hy)
    as [(method & _ & ->) | (imp & name & _ & _ & ->)]; eauto.
Qed.

Lemma function_names_kind `{H : Helpers} (pe : dnPE) :
  Forall (fun y : yielded => ∃ name, y.1 = FunctionName name) (extract_file_function_names pe).
Proof.
  apply Forall_forall. intros y Hy. unfold extract_file_function_names in Hy.
  apply list_elem_of_fmap in Hy as (method & -> & _). eauto.
Qed.

Lemma namespace_features_kind `{O : SetOrder} (pe : dnPE) :
  Forall (fun y : yielded => ∃ ns, y.1 = Namespace ns) (extract_file_namespace_features pe).
Proof.
  apply Forall_forall. intros y Hy. rewrite extract_file_namespace_features_unfold in Hy.
  apply list_elem_of_fmap in Hy as (ns & -> & _). eauto.
Qed.

Lemma class_features_kind (pe : dnPE) :
  Forall (fun y : yielded => ∃ name, y.1 = Class name) (extract_file_class_features pe).
Proof.
  apply Forall_forall. intros y Hy.
  apply (list_elem_of_fmap_2 fst) in Hy.
  rewrite extract_file_class_features_names in Hy.
  apply list_elem_of_fmap in Hy as (row & -> & _). eauto.
Qed.

Lemma mixed_mode_kind (pe : dnPE) :
  Forall (fun y : yielded => y.1 = Characteristic "mixed mode")
         (extract_file_mixed_mode_characteristic_features pe).
Proof.
  unfold extract_file_mixed_mode_characteristic_features.
  destruct (is_dotnet_mixed_mode pe); repeat constructor.
Qed.

(** A feature of another kind than those of a stream does not occur in it. *)
Lemma count_feature_other_kind (f : Feature) (K : Feature → Prop) (l : list yielded) :
  Forall (fun y => K y.1) l → ¬ K f → count_feature f l = 0%nat.
Proof.
  intros Hl Hf. apply count_feature_absent.
  eapply Forall_impl; [exact Hl|]. simpl. intros y Hy Heq.
  apply Hf. rewrite <- Heq. exact Hy.
Qed.

(** In the file stream, a feature that is no Import, FunctionName or String
    feature is counted in the four rules that can emit it. *)
Lemma file_stream_count `{H : Helpers} `{O : SetOrder} (pe : dnPE) (f : Feature) :
  scanner_yields_strings pe →
  (∀ s, f ≠ Import s) → (∀ s, f ≠ FunctionName s) → (∀ s, f ≠ String' s) →
  count_feature f (extract_file_features pe)
  = (count_feature f extract_file_format
     + count_feature f (extract_file_mixed_mode_characteristic_features pe)
     + count_feature f (extract_file_namespace_features pe)
     + count_feature f (extract_file_class_features pe))%nat.
Proof.
  intros Hscan Himp Hfun Hstr.
  rewrite extract_file_features_unfold, !count_feature_app.
  rewrite (count_feature_other_kind f (fun g => ∃ s, g = Import s) _ (import_names_kind pe))
    by (intros [s Hs]; by apply (Himp s)).
  rewrite (count_feature_other_kind f (fun g => ∃ s, g = FunctionName s) _
             (function_names_kind pe))
    by (intros [s Hs]; by apply (Hfun s)).
  rewrite (count_feature_other_kind f (fun g => ∃ s, g = String' s) _ Hscan)
    by (intros [s Hs]; by apply (Hstr s)).
  lia.
Qed.

(** X5: when the string scanner yields only String features, the file
    stream holds the format marker exactly once, and it holds no OS and no
    Arch feature: those are left to the global stream. *)
Theorem file_stream_format_once `{H : Helpers} `{O : SetOrder} (pe : dnPE) :
  scanner_yields_strings pe →
  count_feature (Format FORMAT_DOTNET) (extract_file_features pe) = 1%nat
  ∧ (∀ o, count_feature (OS o) (extract_file_features pe) = 0%nat)
  ∧ (∀ a, count_feature (Arch a) (extract_file_features pe) = 0%nat).
Proof.
  intros Hscan.
  assert (Hcount : ∀ f, (∀ s, f ≠ Import s) → (∀ s, f ≠ FunctionName s) →
                        (∀ s, f ≠ String' s) → (∀ s, f ≠ Namespace s) →
                        (∀ s, f ≠ Class s) → f ≠ Characteristic "mixed mode" →
                        count_feature f (extract_file_features pe)
                        = count_feature f extract_file_format).
  { intros f Himp Hfun Hstr Hns Hclass Hmixed.
    rewrite (file_stream_count pe f Hscan Himp Hfun Hstr).
    rewrite (count_feature_other_kind f (fun g => g = Characteristic "mixed mode") _
               (mixed_mode_kind pe))
      by (intros Hf; by apply Hmixed).
    rewrite (count_feature_other_kind f (fun g => ∃ s, g = Namespace s) _
               (namespace_features_kind pe))
      by (intros [s Hs]; by apply (Hns s)).
    rewrite (count_feature_other_kind f (fun g => ∃ s, g = Class s) _
               (class_features_kind pe))
      by (intros [s Hs]; by apply (Hclass s)).
    lia. }
  split; [|split].
  - rewrite Hcount by done. reflexivity.
  - intros o. rewrite Hcount by done. reflexivity.
  - intros a. rewrite Hcount by done. reflexivity.
Qed.

Lemma sample_scanner_yields_strings (pe : dnPE) :
  scanner_yields_strings (H:=sample_helpers) pe.
Proof. apply Forall_nil. done. Qed.

Lemma file_stream_format_once_witness :
  count_feature (Format FORMAT_DOTNET)
    (extract_file_features (H:=sample_helpers) (O:=elements_order) sample_pe) = 1%nat.
Proof.
  destruct (file_stream_format_once (H:=sample_helpers) (O:=elements_order) sample_pe
              (sample_scanner_yields_strings sample_pe)) as [Hformat _].
  exact Hformat.
Defined.

(** X6: when the string scanner yields only String features, the only
    Characteristic feature the file stream can hold is "mixed mode", and it
    holds it once if [is_dotnet_mixed_mode] answers true and not at all
    otherwise. *)
Theorem file_stream_mixed_mode_count `{H : Helpers} `{O : SetOrder} (pe : dnPE) (c : string) :
  scanner_yields_strings pe →
  count_feature (Characteristic c) (extract_file_features pe)
  = if is_dotnet_mixed_mode pe && bool_decide (c = "mixed mode") then 1%nat else 0%nat.
Proof.
  intros Hscan.
  rewrite (file_stream_count pe _ Hscan) by done.
  rewrite (count_feature_other_kind _ (fun g => ∃ s, g = Namespace s) _
             (namespace_features_kind pe))
    by (by intros [s Hs]).
  rewrite (count_feature_other_kind _ (fun g => ∃ s, g = Class s) _
             (class_features_kind pe))
    by (by intros [s Hs]).
  unfold extract_file_format, extract_file_mixed_mode_characteristic_features.
  rewrite count_feature_singleton, decide_False by done.
  destruct (is_dotnet_mixed_mode pe); simpl; [|reflexivity].
  rewrite count_feature_singleton.
  destruct (decide (c = "mixed mode")) as [->|Hne].
  - rewrite decide_True, bool_decide_eq_true_2 by done. reflexivity.
  - rewrite decide_False by (intros [= Heq]; by apply Hne).
    rewrite bool_decide_eq_false_2 by done. reflexivity.
Qed.

Lemma file_stream_mixed_mode_count_witness :
  count_feature (Characteristic "mixed mode")
    (extract_file_features (H:=sample_helpers) (O:=elements_order) mixed_pe) = 1%nat
  ∧ count_feature (Characteristic "mixed mode")
      (extract_file_features (H:=sample_helpers) (O:=elements_order) sample_pe) = 0%nat.
Proof.
  split.
  - apply (file_stream_mixed_mode_count (H:=sample_helpers) (O:=elements_order) mixed_pe
             "mixed mode" (sample_scanner_yields_strings mixed_pe)).
  - apply (file_stream_mixed_mode_count (H:=sample_helpers) (O:=elements_order) sample_pe
             "mixed mode" (sample_scanner_yields_strings sample_pe)).
Defined.

Lemma count_namespace_feature `{O : SetOrder} (pe : dnPE) (ns : string) :
  set_iter_lawful O →
  count_feature (Namespace ns) (extract_file_namespace_features pe)
  = if decide (ns ∈ namespaces_of pe) then 1%nat else 0%nat.
Proof.
  intros lawful.
  rewrite (count_feature_image Namespace (fun x => x = ns) (Namespace ns)
             (set_iter (namespaces_of pe))).
  - rewrite (count_NoDup _ _ (NoDup_set_iter lawful _)).
    destruct (decide (ns ∈ namespaces_of pe)) as [Hin|Hin].
    + rewrite decide_True by (by apply (elem_of_set_iter lawful)). reflexivity.
    + rewrite decide_False; [reflexivity|].
      intros Hin'. by apply Hin, (elem_of_set_iter lawful).
  - by apply extract_file_namespace_features_names.
  - intros x. split; [by intros [= ->] | by intros ->].
Qed.

(** X7: when the string scanner yields only String features, the whole
    file stream holds the Namespace feature of a namespace exactly once if the
    namespace is not empty and occurs in a TypeDef or TypeRef row, and not at
    all otherwise: no other rule emits a Namespace feature. *)
Theorem file_stream_namespace_count `{H : Helpers} `{O : SetOrder} (pe : dnPE) (ns : string) :
  set_iter_lawful O →
  scanner_yields_strings pe →
  (ns ≠ "" → namespace_occurs pe ns →
   count_feature (Namespace ns) (extract_file_features pe) = 1%nat)
  ∧ (ns = "" ∨ ¬ namespace_occurs pe ns →
     count_feature (Namespace ns) (extract_file_features pe) = 0%nat).
Proof.
  intros lawful Hscan.
  assert (Hcount : count_feature (Namespace ns) (extract_file_features pe)
                   = if decide (ns ∈ namespaces_of pe) then 1%nat else 0%nat).
  { rewrite (file_stream_count pe _ Hscan) by done.
    rewrite (count_feature_other_kind _ (fun g => g = Characteristic "mixed mode") _
               (mixed_mode_kind pe)) by done.
    rewrite (count_feature_other_kind _ (fun g => ∃ s, g = Class s) _
               (class_features_kind pe)) by (by intros [s Hs]).
    unfold extract_file_format. rewrite count_feature_singleton, decide_False by done.
    rewrite (count_namespace_feature pe ns lawful). lia. }
  rewrite Hcount. split.
  - intros Hne Hocc. rewrite decide_True; [reflexivity|].
    by apply elem_of_namespaces_of.
  - intros Hnot. rewrite decide_False; [reflexivity|].
    intros [Hne Hocc]%elem_of_namespaces_of. destruct Hnot as [-> | Hnot]; [done|].
    by apply Hnot.
Qed.

Lemma file_stream_namespace_count_witness :
  count_feature (Namespace "Acme.Tools")
    (extract_file_features (H:=sample_helpers) (O:=reversed_order) sample_pe) = 1%nat
  ∧ count_feature (Namespace "")
      (extract_file_features (H:=sample_helpers) (O:=reversed_order) sample_pe) = 0%nat.
Proof.
  split.
  - destruct (file_stream_namespace_count (H:=sample_helpers) (O:=reversed_order) sample_pe
                "Acme.Tools" reversed_order_lawful (sample_scanner_yields_strings sample_pe))
      as [Honce _].
    apply Honce; [discriminate|].
    exists {| TypeNamespace := "Acme.Tools"; TypeName := "Program" |}.
    split; [|reflexivity]. vm_compute.
    apply list_elem_of_further, list_elem_of_here.
  - destruct (file_stream_namespace_count (H:=sample_helpers) (O:=reversed_order) sample_pe
                "" reversed_order_lawful (sample_scanner_yields_strings sample_pe))
      as [_ Hnone].
    apply Hnone. by left.
Defined.

(** X8: when the string scanner yields only String features, the whole
    file stream holds the Class feature of a type name as many times as there
    are TypeDef and TypeRef rows that format to that name: no other rule emits
    a Class feature, and none is dropped. *)
Theorem file_stream_class_count `{H : Helpers} `{O : SetOrder} (pe : dnPE) (name : string) :
  scanner_yields_strings pe →
  count_feature (Class name) (extract_file_features pe)
  = length (filter (fun row => class_name_of row = name)
                   (iter_dotnet_table pe "TypeDef" ++ iter_dotnet_table pe "TypeRef")).
Proof.
  intros Hscan.
  rewrite (file_stream_count pe _ Hscan) by done.
  rewrite (count_feature_other_kind _ (fun g => g = Characteristic "mixed mode") _
             (mixed_mode_kind pe)) by done.
  rewrite (count_feature_other_kind _ (fun g => ∃ s, g = Namespace s) _
             (namespace_features_kind pe)) by (by intros [s Hs]).
  unfold extract_file_format. rewrite count_feature_singleton, decide_False by done.
  simpl.
  apply (count_feature_image (fun row => Class (class_name_of row))).
  - apply extract_file_class_features_names.
  - intros row. split; [intros [= ->]; reflexivity | intros ->; reflexivity].
Qed.

Lemma file_stream_class_count_witness :
  count_feature (Class "Acme.Tools.Program")
    (extract_file_features (H:=sample_helpers) (O:=elements_order) sample_pe) = 2%nat.
Proof.
  rewrite (file_stream_class_count (H:=sample_helpers) (O:=elements_order) sample_pe
             "Acme.Tools.Program" (sample_scanner_yields_strings sample_pe)).
  reflexivity.
Defined.

(** ** The metadata version string, further *)

Lemma rstrip_nul_all_nul (k : nat) : rstrip_nul (replicate k x00) = [].
Proof. induction k as [|k IH]; simpl; [reflexivity|]. rewrite IH. reflexivity. Qed.

Lemma rstrip_nul_padding (bs : list byte) (k : nat) :
  rstrip_nul (bs ++ replicate k x00) = rstrip_nul bs.
Proof.
  induction bs as [|b rest IH]; simpl.
  - apply rstrip_nul_all_nul.
  - rewrite IH. reflexivity.
Qed.

Lemma rstrip_nul_nil_iff (bs : list byte) :
  rstrip_nul bs = [] ↔ Forall (fun b => b = x00) bs.
Proof.
  split.
  - intros Hnil. destruct (rstrip_nul_spec bs) as [k Hk].
    rewrite Hnil in Hk. simpl in Hk. rewrite Hk.
    apply Forall_replicate. reflexivity.
  - intros Hall. destruct (rstrip_nul_spec bs) as [k Hk].
    destruct (rstrip_nul bs) as [|b kept] eqn:E; [reflexivity|].
    exfalso. apply (rstrip_nul_last bs).
    rewrite E. rewrite Hk in Hall. apply Forall_app in Hall as [Hkept _].
    destruct (last (b :: kept)) as [z|] eqn:El.
    + apply last_Some_elem_of in El.
      rewrite Forall_forall in Hkept. by rewrite (Hkept z El).
    + by apply last_None in El.
Qed.

(** X9: NUL bytes at the end of the metadata version do not change what
    [get_meta_version_string] does: two binaries whose version bytes differ
    only by NUL padding give the same result, be it a string or the error. *)
Theorem version_nul_padding (self self' : DotnetFileFeatureExtractor.t) (k : nat) :
  Version (DotnetFileFeatureExtractor.pe self')
  = Version (DotnetFileFeatureExtractor.pe self) ++ replicate k x00 →
  DotnetFileFeatureExtractor.get_meta_version_string self'
  = DotnetFileFeatureExtractor.get_meta_version_string self.
Proof.
  intros Hpad. unfold DotnetFileFeatureExtractor.get_meta_version_string.
  rewrite Hpad, rstrip_nul_padding. reflexivity.
Qed.

Lemma version_nul_padding_witness :
  DotnetFileFeatureExtractor.get_meta_version_string regrouped_extractor
  = DotnetFileFeatureExtractor.get_meta_version_string sample_extractor.
Proof.
  apply (version_nul_padding sample_extractor regrouped_extractor 3). reflexivity.
Defined.

(** X10: a metadata version that is empty or made of NUL bytes only is
    returned as the empty string, without an error. *)
Theorem version_all_nul (self : DotnetFileFeatureExtractor.t) :
  Forall (fun b => b = x00) (Version (DotnetFileFeatureExtractor.pe self)) →
  returns (DotnetFileFeatureExtractor.get_meta_version_string self) [].
Proof.
  intros Hall. unfold returns, DotnetFileFeatureExtractor.get_meta_version_string.
  apply rstrip_nul_nil_iff in Hall. rewrite Hall. reflexivity.
Qed.

Lemma version_all_nul_witness :
  returns (DotnetFileFeatureExtractor.get_meta_version_string nul_version_extractor) [].
Proof.
  apply version_all_nul. simpl.
  repeat (apply Forall_cons; split; [reflexivity|]). apply Forall_nil. done.
Defined.

(** An [or] of a shifted value with a value that fits below the shift is
    their sum. *)
Lemma lor_shiftl_add (a b n : Z) :
  0 ≤ n → 0 ≤ b < 2 ^ n → Z.lor (Z.shiftl a n) b = a * 2 ^ n + b.
Proof.
  intros Hn Hb. rewrite Z.shiftl_mul_pow2 by lia.
  assert (Hland : Z.land (a * 2 ^ n) b = 0).
  { apply Z.bits_inj'. intros i Hi. rewrite Z.land_spec, Z.bits_0.
    destruct (Z.lt_ge_cases i n) as [Hlt|Hge].
    - rewrite Z.mul_pow2_bits_low by lia. reflexivity.
    - destruct (Z.eq_dec b 0) as [->|Hb0].
      + rewrite Z.bits_0. apply andb_false_r.
      + rewrite (Z.bits_above_log2 b i); [apply andb_false_r | lia |].
        apply Z.log2_lt_pow2; [lia|].
        apply Z.lt_le_trans with (2 ^ n); [lia|].
        apply Z.pow_le_mono_r; lia. }
  rewrite <- Z.lxor_lor by exact Hland.
  rewrite Z.add_nocarry_lxor by exact Hland. reflexivity.
Qed.

Lemma low6_mod (b : byte) : low6 b = byte_val b mod 64.
Proof. unfold low6. change 0x3F with (Z.ones 6). rewrite Z.land_ones by lia. reflexivity. Qed.

Lemma byte_val_nul (b : byte) : byte_val b = 0 → b = x00.
Proof.
  unfold byte_val. intros Hb.
  assert (Hn : Byte.to_N b = 0%N) by lia.
  pose proof (Byte.of_to_N b) as Hof. rewrite Hn in Hof.
  simpl in Hof. by injection Hof.
Qed.

Lemma mod_pow2_range (v n : Z) : 0 ≤ n → 0 ≤ v mod 2 ^ n < 2 ^ n.
Proof. intros Hn. apply Z.mod_pos_bound. apply Z.pow_pos_nonneg; lia. Qed.

(** The code point of a two-byte sequence. *)
Lemma codepoint_two (b0 b1 : byte) :
  in_range 0xC2 0xDF (byte_val b0) = true →
  continuation b1 = true →
  0x80 ≤ Z.lor (Z.shiftl (Z.land (byte_val b0) 0x1F) 6) (low6 b1) ≤ 0x7FF.
Proof.
  intros H0 H1. rewrite low6_mod.
  change 0x1F with (Z.ones 5). rewrite Z.land_ones by lia.
  rewrite lor_shiftl_add by (try lia; apply (mod_pow2_range _ 6); lia).
  range_facts. Z.div_mod_to_equations. lia.
Qed.

(** The code point of a three-byte sequence: no surrogate. *)
Lemma codepoint_three (b0 b1 b2 : byte) :
  in_range 0xE0 0xEF (byte_val b0) = true →
  in_range (if byte_val b0 =? 0xE0 then 0xA0 else 0x80)
           (if byte_val b0 =? 0xED then 0x9F else 0xBF) (byte_val b1) = true →
  continuation b2 = true →
  let c := Z.lor (Z.shiftl (Z.land (byte_val b0) 0x0F) 12)
                 (Z.lor (Z.shiftl (low6 b1) 6) (low6 b2)) in
  0x800 ≤ c ≤ 0xFFFF ∧ ¬ (0xD800 ≤ c ≤ 0xDFFF).
Proof.
  intros H0 H1 H2 c. subst c. rewrite !low6_mod.
  change 0x0F with (Z.ones 4). rewrite Z.land_ones by lia.
  rewrite (lor_shiftl_add _ _ 6) by (try lia; apply (mod_pow2_range _ 6); lia).
  assert (R1 : 0 ≤ byte_val b1 mod 64 < 64) by (apply Z.mod_pos_bound; lia).
  assert (R2 : 0 ≤ byte_val b2 mod 64 < 64) by (apply Z.mod_pos_bound; lia).
  rewrite (lor_shiftl_add _ _ 12) by lia.
  unfold continuation, in_range in *.
  apply andb_prop in H0 as [H0 H0'], H1 as [H1 H1'], H2 as [H2 H2'].
  apply Z.leb_le in H0, H0', H1, H1', H2, H2'.
  destruct (Z.eqb_spec (byte_val b0) 0xE0), (Z.eqb_spec (byte_val b0) 0xED);
    Z.div_mod_to_equations; lia.
Qed.

(** The code point of a four-byte sequence: above the basic plane, at most
    U+10FFFF. *)
Lemma codepoint_four (b0 b1 b2 b3 : byte) :
  in_range 0xF0 0xF4 (byte_val b0) = true →
  in_range (if byte_val b0 =? 0xF0 then 0x90 else 0x80)
           (if byte_val b0 =? 0xF4 then 0x8F else 0xBF) (byte_val b1) = true →
  continuation b2 = true →
  continuation b3 = true →
  0x10000
  ≤ Z.lor (Z.shiftl (Z.land (byte_val b0) 0x07) 18)
          (Z.lor (Z.shiftl (low6 b1) 12) (Z.lor (Z.shiftl (low6 b2) 6) (low6 b3)))
  ≤ 0x10FFFF.
Proof.
  intros H0 H1 H2 H3. rewrite !low6_mod.
  change 0x07 with (Z.ones 3). rewrite Z.land_ones by lia.
  assert (R1 : 0 ≤ byte_val b1 mod 64 < 64) by (apply Z.mod_pos_bound; lia).
  assert (R2 : 0 ≤ byte_val b2 mod 64 < 64) by (apply Z.mod_pos_bound; lia).
  assert (R3 : 0 ≤ byte_val b3 mod 64 < 64) by (apply Z.mod_pos_bound; lia).
  rewrite (lor_shiftl_add _ _ 6) by lia.
  rewrite (lor_shiftl_add _ _ 12) by lia.
  rewrite (lor_shiftl_add _ _ 18) by lia.
  unfold continuation, in_range in *.
  apply andb_prop in H0 as [H0 H0'], H1 as [H1 H1'], H2 as [H2 H2'], H3 as [H3 H3'].
  apply Z.leb_le in H0, H0', H1, H1', H2, H2', H3, H3'.
  destruct (Z.eqb_spec (byte_val b0) 0xF0), (Z.eqb_spec (byte_val b0) 0xF4);
    Z.div_mod_to_equations; lia.
Qed.

(** One step of the decoder: the first character, the bytes it takes and
    the bytes left. *)
Lemma decode_utf8_cons (b0 : byte) (r0 : list byte) (s : list Z) :
  decode_utf8 (b0 :: r0) = Some s →
  ∃ (c : Z) (s' : list Z) (pre rest : list byte),
    b0 :: r0 = pre ++ rest ∧ pre ≠ [] ∧ s = c :: s'
    ∧ decode_utf8 rest = Some s'
    ∧ unicode_scalar c
    ∧ (c < 0x80 → pre = [b0] ∧ c = byte_val b0).
Proof.
  cbn [decode_utf8]. intros Hs.
  pose proof (byte_val_range b0) as Hb0.
  destruct (byte_val b0 <? 128) eqn:E1.
  { destruct (decode_utf8 r0) as [s'|] eqn:Hr; [|discriminate].
    injection Hs as <-. exists (byte_val b0), s', [b0], r0.
    apply Z.ltb_lt in E1. unfold unicode_scalar. repeat split; try done; lia. }
  destruct (in_range 194 223 (byte_val b0)) eqn:E2.
  { destruct r0 as [|b1 r1]; [discriminate|].
    destruct (continuation b1) eqn:C1; [|discriminate].
    destruct (decode_utf8 r1) as [s'|] eqn:Hr; [|discriminate].
    injection Hs as <-.
    pose proof (codepoint_two b0 b1 E2 C1) as Hc.
    eexists _, s', [b0; b1], r1.
    unfold unicode_scalar. repeat split; try done; lia. }
  destruct (in_range 224 239 (byte_val b0)) eqn:E3.
  { destruct r0 as [|b1 [|b2 r2]]; [discriminate | discriminate |].
    match type of Hs with (if ?c then _ else _) = _ => destruct c eqn:C end; [|discriminate].
    apply andb_prop in C as [C1 C2].
    destruct (decode_utf8 r2) as [s'|] eqn:Hr; [|discriminate].
    injection Hs as <-.
    pose proof (codepoint_three b0 b1 b2 E3 C1 C2) as Hc. simpl in Hc.
    eexists _, s', [b0; b1; b2], r2.
    unfold unicode_scalar. repeat split; try done; lia. }
  destruct (in_range 240 244 (byte_val b0)) eqn:E4; [|discriminate].
  destruct r0 as [|b1 [|b2 [|b3 r3]]]; [discriminate | discriminate | discriminate |].
  match type of Hs with (if ?c then _ else _) = _ => destruct c eqn:C end; [|discriminate].
  apply andb_prop in C as [C12 C3]. apply andb_prop in C12 as [C1 C2].
  destruct (decode_utf8 r3) as [s'|] eqn:Hr; [|discriminate].
  injection Hs as <-.
  pose proof (codepoint_four b0 b1 b2 b3 E4 C1 C2 C3) as Hc.
  eexists _, s', [b0; b1; b2; b3], r3.
  unfold unicode_scalar. repeat split; try done; lia.
Qed.

Lemma decode_utf8_nil_inv (bs : list byte) : decode_utf8 bs = Some [] → bs = [].
Proof.
  destruct bs as [|b0 r0]; [done|]. intros Hs.
  apply decode_utf8_cons in Hs as (c & s' & pre & rest & _ & _ & Hs & _). discriminate.
Qed.

(** What a successful decoding guarantees about the string. *)
Lemma decode_utf8_result (bs : list byte) (s : list Z) :
  decode_utf8 bs = Some s →
  (length s ≤ length bs)%nat
  ∧ Forall unicode_scalar s
  ∧ (last s = Some 0 → last bs = Some x00).
Proof.
  remember (length bs) as n eqn:Hn.
  assert (Hle : (length bs ≤ n)%nat) by lia. clear Hn.
  revert bs s Hle. induction n as [|n IH]; intros bs s Hle Hs.
  { destruct bs; [|simpl in Hle; lia]. injection Hs as <-.
    split; [done|]. split; [constructor | done]. }
  destruct bs as [|b0 r0].
  { injection Hs as <-. simpl. split; [lia|]. split; [constructor | done]. }
  apply decode_utf8_cons in Hs as (c & s' & pre & rest & Hbs & Hpre & -> & Hrest & Hc & Hone).
  assert (Hlen : (length (b0 :: r0) = length pre + length rest)%nat)
    by (rewrite Hbs, length_app; reflexivity).
  assert (Hpos : (1 ≤ length pre)%nat) by (destruct pre; [done | simpl; lia]).
  destruct (IH rest s') as (IHlen & IHall & IHlast); [lia | exact Hrest |].
  split; [simpl; simpl in Hlen; lia|]. split; [by constructor|].
  rewrite Hbs. destruct s' as [|c' s''].
  - intros [= ->]. destruct Hone as [-> Hval]; [lia|].
    apply decode_utf8_nil_inv in Hrest as ->.
    symmetry in Hval. apply byte_val_nul in Hval as ->. reflexivity.
  - rewrite last_cons_cons. intros Hlast.
    rewrite last_app, (IHlast Hlast). reflexivity.
Qed.

(** X11: when [get_meta_version_string] returns a string, the string has at
    most as many characters as the version has bytes, each character is a
    Unicode scalar value (at most U+10FFFF and no surrogate), and the string
    does not end with a NUL character. *)
Theorem version_string_well_formed (self : DotnetFileFeatureExtractor.t) (s : list Z) :
  returns (DotnetFileFeatureExtractor.get_meta_version_string self) s →
  (length s ≤ length (Version (DotnetFileFeatureExtractor.pe self)))%nat
  ∧ Forall unicode_scalar s
  ∧ last s ≠ Some 0.
Proof.
  unfold returns, DotnetFileFeatureExtractor.get_meta_version_string.
  set (raw := Version (DotnetFileFeatureExtractor.pe self)).
  destruct (decode_utf8 (rstrip_nul raw)) as [s0|] eqn:Hdec; [|discriminate].
  intros [= ->].
  destruct (decode_utf8_result _ _ Hdec) as (Hlen & Hall & Hlast).
  split; [|split; [exact Hall|]].
  - destruct (rstrip_nul_spec raw) as [k Hk].
    apply (f_equal length) in Hk. rewrite length_app in Hk. lia.
  - intros Hnul. by apply (rstrip_nul_last raw), Hlast.
Qed.

Lemma version_string_well_formed_witness :
  returns (DotnetFileFeatureExtractor.get_meta_version_string accented_extractor) [0x41; 0xE9]
  ∧ (length [0x41; 0xE9] ≤ 5)%nat
  ∧ Forall unicode_scalar [0x41; 0xE9]
  ∧ last [0x41; 0xE9] ≠ Some 0.
Proof.
  assert (Hret : returns (DotnetFileFeatureExtractor.get_meta_version_string accented_extractor)
                         [0x41; 0xE9]) by reflexivity.
  split; [exact Hret|].
  apply (version_string_well_formed accented_extractor [0x41; 0xE9] Hret).
Defined.
